(** * make_thumbs: batch video thumbnails through FFmpeg

    A shallow embedding of [Travel/make_thumbs.py] and the properties of
    its command builders, duration probe, job runner, file processor,
    discovery and driver.

    Conventions of the model
    - Python [str] is a Rocq [string] holding the UTF-8 bytes of the text.
    - Python [int] is [Z]; Python [float] is the kernel's binary64 [float].
    - A [pathlib.Path] is the list of its components below the root.
    - The file system is a finite map from paths to the kind of the entry;
      permissions and I/O errors of the disk are outside the model.
    - Everything the operating system decides (what an external process
      does, which temporary name is handed out, in which order futures
      complete) is read from an environment [Env].
    - Code that can raise lives in a state-and-exception monad [M].
    - A task handed to the worker pool runs to its end before the next one
      starts: how the workers interleave is not modelled, only what each
      future ends up holding and the order in which the futures are
      collected. Signals and interruptions are outside the model. *)

From Stdlib Require Import ZArith List Ascii String Floats Sorting.Sorted Permutation.
From stdpp Require Import base decidable option list strings pretty gmap fin_maps sorting.

Local Open Scope string_scope.
Local Open Scope Z_scope.
Local Open Scope list_scope.

(* ===================================================================== *)
(** * Python strings *)
(* ===================================================================== *)

Module PyStr.

(** [str.lower()] on the UTF-8 bytes. ASCII capitals are folded; the two
    code points outside ASCII whose lower case contains an ASCII letter
    (KELVIN SIGN U+212A, bytes E2 84 AA, gives "k"; U+0130, bytes C4 B0,
    gives "i" followed by U+0307) are folded as Python does. Every other
    code point lowers to text outside ASCII and is left as it is. *)
Definition lower_ascii (c : ascii) : ascii :=
  let n := nat_of_ascii c in
  if (65 <=? n)%nat && (n <=? 90)%nat then ascii_of_nat (n + 32) else c.

Fixpoint lower (s : string) : string :=
  match s with
  | EmptyString => EmptyString
  | String "226" (String "132" (String "170" r)) => String "k" (lower r)
  | String "196" (String "176" r) =>
      String "i" (String "204" (String "135" (lower r)))
  | String c r => String (lower_ascii c) (lower r)
  end.

(** [s.split(sep)] for a one-character separator. *)
Fixpoint split_go (sep : ascii) (cur : string) (s : string) : list string :=
  match s with
  | EmptyString => [String.rev cur]
  | String c r =>
      if Ascii.eqb c sep then String.rev cur :: split_go sep EmptyString r
      else split_go sep (String c cur) r
  end.
Definition split (sep : ascii) (s : string) : list string :=
  split_go sep EmptyString s.

(** [s.replace(a, b)] for single characters. *)
Fixpoint replace (a b : ascii) (s : string) : string :=
  match s with
  | EmptyString => EmptyString
  | String c r => String (if Ascii.eqb c a then b else c) (replace a b r)
  end.

(** [sep.join(l)] *)
Definition join (sep : string) (l : list string) : string := String.concat sep l.

(** The white space [int()] skips at both ends: TAB..CR, FS..US, SPACE. *)
Definition is_space (c : ascii) : bool :=
  let n := nat_of_ascii c in
  ((9 <=? n)%nat && (n <=? 13)%nat) || ((28 <=? n)%nat && (n <=? 32)%nat).

Fixpoint lstrip (s : string) : string :=
  match s with
  | String c r => if is_space c then lstrip r else s
  | EmptyString => EmptyString
  end.
Definition strip (s : string) : string :=
  String.rev (lstrip (String.rev (lstrip s))).

Definition digit (c : ascii) : option Z :=
  let n := nat_of_ascii c in
  if (48 <=? n)%nat && (n <=? 57)%nat then Some (Z.of_nat (n - 48)) else None.

(** Digits of a decimal literal, a single underscore allowed between
    two digits. [prev] tells whether the previous character was a digit. *)
Fixpoint digits_go (acc : Z) (prev : bool) (s : string) : option Z :=
  match s with
  | EmptyString => if prev then Some acc else None
  | String c r =>
      match digit c with
      | Some d => digits_go (10 * acc + d) true r
      | None =>
          if Ascii.eqb c "_" && prev then
            match r with
            | String c' _ =>
                if digit c' is Some _ then digits_go acc false r else None
            | EmptyString => None
            end
          else None
      end
  end.

(** [int(s)] in base ten; [None] stands for [ValueError]. Digits and
    white space outside ASCII, which [int()] also accepts, and the
    interpreter's limit on the number of digits are not modelled. *)
Definition int (s : string) : option Z :=
  match strip s with
  | String "-" r => Z.opp <$> digits_go 0 false r
  | String "+" r => digits_go 0 false r
  | r => digits_go 0 false r
  end.

End PyStr.

(* ===================================================================== *)
(** * Exceptions *)
(* ===================================================================== *)

(** The exceptions the program can meet. [SystemExit] derives from
    [BaseException] only, so [except Exception] lets it through. *)
Inductive exn : Type :=
| ValueError (msg : string)
| OverflowError (msg : string)
| OSError (msg : string)
| CalledProcessError (returncode : Z) (cmd : list string)
| SystemExit (msg : string).

Definition is_Exception (e : exn) : bool :=
  match e with SystemExit _ => false | _ => true end.

(** [str(e)] *)
Definition exn_str (e : exn) : string :=
  match e with
  | ValueError m | OverflowError m | OSError m | SystemExit m => m
  | CalledProcessError c cmd =>
      "Command '" +:+ PyStr.join " " cmd +:+ "' returned non-zero exit status "
        +:+ pretty c +:+ "."
  end.

Inductive res (A : Type) : Type :=
| Ok (a : A)
| Raise (e : exn).
Arguments Ok {A} a.
Arguments Raise {A} e.

(* ===================================================================== *)
(** * Python numbers *)
(* ===================================================================== *)

Module PyNum.

(** [max(a, b)] on floats: the second argument wins only when it is
    strictly greater, so a NaN in second place is dropped. *)
Definition fmax (a b : float) : float := if PrimFloat.ltb a b then b else a.

(** [max(a, b)] on ints. *)
Definition imax (a b : Z) : Z := if a <? b then b else a.

(** Conversion of an int to a float (round to nearest, ties to even);
    [None] is [OverflowError]. *)
Definition float_of_int (z : Z) : option float :=
  match binary_normalize prec emax z 0 false with
  | S754_infinity _ => None
  | sf => Some (SF2Prim sf)
  end.

(** [math.ceil(x)]: the least integer not below [x]; infinities and NaN
    raise. A finite float is [±m·2^e]. *)
Definition ceil (x : float) : res Z :=
  match Prim2SF x with
  | S754_zero _ => Ok 0
  | S754_finite s m e =>
      let n := if s then Z.neg m else Z.pos m in
      if 0 <=? e then Ok (n * 2 ^ e) else Ok (- ((- n) / 2 ^ (- e)))
  | S754_infinity _ => Raise (OverflowError "cannot convert float infinity to integer")
  | S754_nan => Raise (ValueError "cannot convert float NaN to integer")
  end.

(** [n / d] for an int [n] and a float [d] known to be non-zero. *)
Definition truediv (n : Z) (d : float) : res float :=
  match float_of_int n with
  | Some f => Ok (PrimFloat.div f d)
  | None => Raise (OverflowError "int too large to convert to float")
  end.

(** [f"{x:.Nf}"]: the exact value of the float, rounded to [n] decimals
    with ties to even, written with its sign. *)
Definition round_half_even (num den : Z) : Z :=
  let q := num / den in
  let r := num mod den in
  match 2 * r ?= den with
  | Lt => q
  | Gt => q + 1
  | Eq => if Z.even q then q else q + 1
  end.

Definition fixed_digits (n : nat) (scaled : Z) : string :=
  let unit := 10 ^ Z.of_nat n in
  let frac := pretty (unit + scaled mod unit) in
  let int_part := pretty (scaled / unit) in
  match n with
  | O => int_part
  | _ => int_part +:+ "." +:+ substring 1 n frac
  end.

Definition format_fixed (n : nat) (x : float) : string :=
  match Prim2SF x with
  | S754_nan => "nan"
  | S754_infinity s => if s then "-inf" else "inf"
  | S754_zero s => (if s then "-" else "") +:+ fixed_digits n 0
  | S754_finite s m e =>
      let scaled :=
        if 0 <=? e then Z.pos m * 2 ^ e * 10 ^ Z.of_nat n
        else round_half_even (Z.pos m * 10 ^ Z.of_nat n) (2 ^ (- e)) in
      (if s then "-" else "") +:+ fixed_digits n scaled
  end.

End PyNum.


(* ===================================================================== *)
(** * Paths *)
(* ===================================================================== *)

Module PyPath.

(** An absolute path: its components below the root. *)
Definition Path : Type := list string.

(** [str(p)] *)
Definition str (p : Path) : string :=
  match p with
  | [] => "/"
  | _ => String.concat "" (map (fun c => "/" +:+ c) p)
  end.

(** [p.name] *)
Definition name (p : Path) : string := List.last p "".

(** [p.parent] *)
Definition parent (p : Path) : Path := removelast p.

(** [p / child] for a single component. *)
Definition joinpath (p : Path) (child : string) : Path := (p ++ [child])%list.

(** [s.rfind(c)] *)
Fixpoint rfind_go (c : ascii) (i : nat) (found : option nat) (s : string)
  : option nat :=
  match s with
  | EmptyString => found
  | String a r => rfind_go c (S i) (if Ascii.eqb a c then Some i else found) r
  end.
Definition rfind (c : ascii) (s : string) : option nat := rfind_go c 0%nat None s.

(** Where [name] splits into stem and suffix: the last dot, when it is
    neither the first nor the last character (pathlib of CPython 3.12). *)
Definition split_point (nm : string) : option nat :=
  match rfind "." nm with
  | Some i =>
      if (0 <? i)%nat && (i <? String.length nm - 1)%nat then Some i else None
  | None => None
  end.

(** [p.suffix] *)
Definition suffix (p : Path) : string :=
  let nm := name p in
  match split_point nm with
  | Some i => substring i (String.length nm - i) nm
  | None => ""
  end.

(** [p.stem] *)
Definition stem (p : Path) : string :=
  let nm := name p in
  match split_point nm with
  | Some i => substring 0 i nm
  | None => nm
  end.

(** [Path(s)]: the components between slashes, empty ones dropped. *)
Definition of_str (s : string) : Path :=
  filter (fun c => c ≠ "") (PyStr.split "/" s).

(** The order of [Path] objects: that of their lists of components,
    each compared as a string. *)
Fixpoint le (p q : Path) : Prop :=
  match p, q with
  | [], _ => True
  | _ :: _, [] => False
  | a :: p', b :: q' => a ≠ b ∧ String.le a b ∨ a = b ∧ le p' q'
  end.

#[global] Instance le_dec : RelDecision le.
Proof.
  intros p. induction p as [|a p IH]; intros [|b q]; simpl; apply _.
Defined.

End PyPath.
Export PyPath (Path).


(* ===================================================================== *)
(** * The world outside the interpreter *)
(* ===================================================================== *)

(** What a path leads to: a regular file, a directory, or anything else
    that exists (socket, FIFO, device). *)
Inductive kind : Type := Regular | Directory | Special.

#[global] Instance kind_eq_dec : EqDecision kind.
Proof. solve_decision. Defined.

(** What the program does that can be observed from outside, beside the
    files it leaves: the processes it starts, the lines it prints and the
    worker pools it creates. *)
Inductive event : Type :=
| Spawn (cmd : list string)
| Stdout (line : string)
| Pool (max_workers : Z).

Record World : Type := mkWorld {
  fs : gmap Path kind;
  trace : list event
}.

(** How an attempt to run a command ends: the process could not be
    started, or it ran and exited with a status and some output. *)
Inductive proc_outcome : Type :=
| LaunchError (msg : string)
| Exited (returncode : Z) (output : string).

(** The environment of one run. *)
Record Env : Type := mkEnv {
  (** the command run on a file system: how it ends, and the files after *)
  os_exec : list string → gmap Path kind → proc_outcome * gmap Path kind;
  (** [shutil.which(tool) is not None] *)
  which : string → bool;
  (** [float(out.decode().strip())]; [None] when any of the three raises *)
  float_of_output : string → option float;
  (** the name [tempfile.NamedTemporaryFile] picks *)
  mkstemp : gmap Path kind → Path;
  (** the order in which [as_completed] yields [n] futures *)
  completion_order : nat → list nat
}.

(* ===================================================================== *)
(** * State and exceptions *)
(* ===================================================================== *)

Definition M (A : Type) : Type := World → res A * World.

#[global] Instance M_ret : MRet M := λ A a w, (Ok a, w).
#[global] Instance M_bind : MBind M := λ A B f m w,
  match m w with
  | (Ok a, w') => f a w'
  | (Raise e, w') => (Raise e, w')
  end.

Definition raise {A} (e : exn) : M A := λ w, (Raise e, w).

(** [try: body / except Exception as e: handler(e)] *)
Definition try_except {A} (body : M A) (handler : exn → M A) : M A := λ w,
  match body w with
  | (Raise e, w') => if is_Exception e then handler e w' else (Raise e, w')
  | r => r
  end.

(** [try: body / finally: cleanup] *)
Definition try_finally {A} (body : M A) (cleanup : M unit) : M A := λ w,
  let '(r, w1) := body w in
  match cleanup w1 with
  | (Ok _, w2) => (r, w2)
  | (Raise e, w2) => (Raise e, w2)
  end.

(** What a future keeps of its task: the value returned or the exception
    raised, whatever its class. *)
Definition capture {A} (task : M A) : M (res A) := λ w,
  let '(r, w') := task w in (Ok r, w').

(** [fut.result()] *)
Definition result {A} (r : res A) : M A :=
  match r with Ok a => mret a | Raise e => raise e end.

Definition emit (ev : event) : M unit := λ w,
  (Ok tt, mkWorld (fs w) (trace w ++ [ev])).

Definition print (line : string) : M unit := emit (Stdout line).

Definition exists_ (p : Path) : M bool := λ w, (Ok (bool_decide (is_Some (fs w !! p))), w).

Fixpoint for_each {A} (l : list A) (body : A → M unit) : M unit :=
  match l with
  | [] => mret tt
  | x :: r => _ ← body x; for_each r body
  end.

(* ===================================================================== *)
(** * The program *)
(* ===================================================================== *)

Section Program.

Variable E : Env.

(** ** Library calls *)

(** Starting a process: the attempt is observable, its effect on the
    files is the environment's. *)
Definition spawn (cmd : list string) : M (Z * string) := λ w,
  let w' := mkWorld (fs w) (trace w ++ [Spawn cmd]) in
  match os_exec E cmd (fs w) with
  | (LaunchError msg, _) => (Raise (OSError msg), w')
  | (Exited rc out, fs') => (Ok (rc, out), mkWorld fs' (trace w'))
  end.

(** [subprocess.run(cmd, check=True, stdout=DEVNULL, stderr=DEVNULL)] *)
Definition subprocess_run (cmd : list string) : M unit :=
  '(rc, _) ← spawn cmd;
  if rc =? 0 then mret tt else raise (CalledProcessError rc cmd).

(** [subprocess.check_output(cmd, stderr=STDOUT)] *)
Definition check_output (cmd : list string) : M string :=
  '(rc, out) ← spawn cmd;
  if rc =? 0 then mret out else raise (CalledProcessError rc cmd).

(** [float(out.decode().strip())] *)
Definition parse_float (out : string) : M float :=
  match float_of_output E out with
  | Some x => mret x
  | None => raise (ValueError "could not convert string to float")
  end.

(** [folder.iterdir()]: the entries whose parent is [folder], in no
    particular order. *)
Definition iterdir (folder : Path) : M (list Path) := λ w,
  match fs w !! folder with
  | Some Directory =>
      (Ok (filter (λ p, p ≠ [] ∧ PyPath.parent p = folder)
             (map_to_list (fs w)).*1), w)
  | _ => (Raise (OSError "not a directory"), w)
  end.

(** [p.is_file()] *)
Definition is_file (w : World) (p : Path) : bool :=
  bool_decide (fs w !! p = Some Regular).

(** [tempfile.NamedTemporaryFile(delete=False, suffix=".txt")], the
    write and the close: a regular file under the name handed out.
    Creating, writing and closing are taken to succeed: a disk that fails
    and a title that cannot be encoded are outside the model. *)
Definition named_temporary_file (text : string) : M Path := λ w,
  let p := mkstemp E (fs w) in
  (Ok p, mkWorld (<[p := Regular]> (fs w)) (trace w)).

(** [os.remove(p)]: unlinks a file that is there and not a directory. *)
Definition os_remove (p : Path) : M unit := λ w,
  match fs w !! p with
  | Some Directory => (Raise (OSError "is a directory"), w)
  | Some _ => (Ok tt, mkWorld (delete p (fs w)) (trace w))
  | None => (Raise (OSError "no such file or directory"), w)
  end.

(** [p.mkdir(parents=True, exist_ok=True)]: every missing ancestor and
    the directory itself are created; an entry in the way that is not a
    directory raises. [done] is the prefix already in place. *)
Fixpoint mkdir_go (done : Path) (rest : list string) : M unit :=
  match rest with
  | [] => mret tt
  | c :: rest' =>
      let p := PyPath.joinpath done c in
      λ w,
        match fs w !! p with
        | None => mkdir_go p rest' (mkWorld (<[p := Directory]> (fs w)) (trace w))
        | Some Directory => mkdir_go p rest' w
        | Some _ => (Raise (OSError "file exists"), w)
        end
  end.
Definition mkdir_parents (p : Path) : M unit := mkdir_go [] p.

(** ** make_thumbs.py *)

Definition VIDEO_EXTS : list string :=
  [".mp4"; ".mov"; ".mkv"; ".avi"; ".m4v"; ".webm"].

Definition check_deps : M unit :=
  for_each ["ffmpeg"; "ffprobe"] (λ tool,
    if which E tool then mret tt
    else raise (SystemExit ("[!] " +:+ tool +:+
           " не найден. Установите FFmpeg (macOS: brew install ffmpeg)."))).

Definition list_videos (folder : Path) : M (list Path) :=
  entries ← iterdir folder;
  (λ w, (Ok (merge_sort PyPath.le
               (filter (λ p, is_file w p = true ∧
                             PyStr.lower (PyPath.suffix p) ∈ VIDEO_EXTS) entries)), w))
    : M (list Path).

Definition ffprobe_duration (path : Path) : M float :=
  try_except
    (out ← check_output ["ffprobe"; "-v"; "error"; "-show_entries";
                         "format=duration"; "-of"; "default=nw=1:nk=1";
                         PyPath.str path];
     x ← parse_float out;
     mret (PyNum.fmax 0%float x))
    (λ _, mret 0%float).

Definition run (cmd : list string) : M (bool * string) :=
  try_except
    (_ ← subprocess_run cmd; mret (true, ""))
    (λ e,
       match e with
       | CalledProcessError rc _ =>
           mret (false, "Command failed (" +:+ pretty rc +:+ "): "
                          +:+ PyStr.join " " cmd)
       | _ => mret (false, "Error: " +:+ exn_str e)
       end).

Definition title_from_filename (path : Path) : string :=
  PyStr.replace "_" " " (PyPath.stem path).

Definition build_smart_cmd (inp out : Path) (width height : Z) : list string :=
  ["ffmpeg"; "-y"; "-v"; "error"; "-i"; PyPath.str inp;
   "-vf"; "thumbnail=600,scale=" +:+ pretty width +:+ ":" +:+ pretty height;
   "-frames:v"; "1"; PyPath.str out].

Definition build_middle_cmd (inp out : Path) (width height : Z) (percent : float)
  : M (list string) :=
  dur ← ffprobe_duration inp;
  let ts := if PrimFloat.ltb 0%float dur
            then PyNum.fmax 0%float (PrimFloat.mul dur percent)
            else 0%float in
  mret ["ffmpeg"; "-y"; "-v"; "error"; "-ss"; PyNum.format_fixed 3 ts;
        "-i"; PyPath.str inp; "-frames:v"; "1";
        "-vf"; "scale=" +:+ pretty width +:+ ":" +:+ pretty height;
        PyPath.str out].

Definition build_styled_cmd (inp out : Path) (width height canvas_h : Z)
    (font : string) (logo : option string) (title : string)
  : M (list string * Path) :=
  tmp ← named_temporary_file title;
  let vf_common :=
    "thumbnail=600,scale=" +:+ pretty width +:+ ":" +:+ pretty height +:+ ","
    +:+ "pad=" +:+ pretty width +:+ ":" +:+ pretty canvas_h
    +:+ ":(ow-iw)/2:(oh-ih)/2:color=black,"
    +:+ "drawbox=x=0:y=oh-140:w=ow:h=140:color=black@0.55:t=fill,"
    +:+ "drawtext=fontfile='" +:+ font +:+ "':textfile='" +:+ PyPath.str tmp
    +:+ "':x=40:y=h-70:"
    +:+ "fontsize=48:fontcolor=white:borderw=2:bordercolor=black@0.9" in
  let with_logo (l : string) :=
    ["ffmpeg"; "-y"; "-v"; "error";
     "-i"; PyPath.str inp; "-i"; l;
     "-filter_complex"; "[0:v]" +:+ vf_common +:+ "[bg];[bg][1:v]overlay=20:20";
     "-frames:v"; "1"; PyPath.str out] in
  let without_logo :=
    ["ffmpeg"; "-y"; "-v"; "error"; "-i"; PyPath.str inp;
     "-vf"; vf_common; "-frames:v"; "1"; PyPath.str out] in
  let cmd :=
    match logo with
    | Some l => if String.eqb l "" then without_logo else with_logo l
    | None => without_logo
    end in
  mret (cmd, tmp).

(** The [try] block of [build_grid_cmd]: two parts around an "x", both
    integers, both positive; [None] when anything in it raises. *)
Definition parse_tile (tile : string) : option (Z * Z) :=
  match PyStr.split "x" (PyStr.lower tile) with
  | [c; r] =>
      match PyStr.int c, PyStr.int r with
      | Some cols, Some rows =>
          if (0 <? cols) && (0 <? rows) then Some (cols, rows) else None
      | _, _ => None
      end
  | _ => None
  end.

Definition build_grid_cmd (inp out : Path) (width : Z) (tile : string)
  : M (list string) :=
  '(cols, rows) ← match parse_tile tile with
                  | Some cr => mret cr
                  | None => raise (ValueError ("Неверный --tile: " +:+ tile))
                  end;
  let total := cols * rows in
  let cellw := PyNum.imax 1 (width / cols) in
  dur ← ffprobe_duration inp;
  fps ← (if PrimFloat.leb dur 0%float then mret 1
         else q ← result (PyNum.truediv total dur);
              c ← result (PyNum.ceil q);
              mret (PyNum.imax 1 c));
  mret ["ffmpeg"; "-y"; "-v"; "error"; "-i"; PyPath.str inp;
        "-vf"; "fps=" +:+ pretty fps +:+ ",scale=" +:+ pretty cellw
               +:+ ":-2,tile=" +:+ pretty cols +:+ "x" +:+ pretty rows;
        "-frames:v"; pretty total;
        PyPath.str out].

Definition process_one (path outdir : Path) (mode : string) (width height : Z)
    (percent : float) (canvas_h : Z) (font : string) (logo : option string)
    (tile : string) : M (bool * string * string) :=
  let base := PyPath.stem path in
  let out_path :=
    if String.eqb mode "grid" then PyPath.joinpath outdir (base +:+ "_grid.jpg")
    else PyPath.joinpath outdir (base +:+ ".jpg") in
  present ← exists_ out_path;
  if present : bool then mret (true, PyPath.str path, "skip (exists)")
  else if String.eqb mode "smart" then
    let cmd := build_smart_cmd path out_path width height in
    '(ok, msg) ← run cmd;
    mret (ok, PyPath.str path, msg)
  else if String.eqb mode "middle" then
    cmd ← build_middle_cmd path out_path width height percent;
    '(ok, msg) ← run cmd;
    mret (ok, PyPath.str path, msg)
  else if String.eqb mode "styled" then
    let title := title_from_filename path in
    '(cmd, tmpfile) ← build_styled_cmd path out_path width height canvas_h
                        font logo title;
    try_finally
      ('(ok, msg) ← run cmd;
       mret (ok, PyPath.str path, msg))
      (try_except (os_remove tmpfile) (λ _, mret tt))
  else if String.eqb mode "grid" then
    cmd ← build_grid_cmd path out_path width tile;
    '(ok, msg) ← run cmd;
    mret (ok, PyPath.str path, msg)
  else mret (false, PyPath.str path, "unknown mode: " +:+ mode).

Record Args : Type := mkArgs {
  args_input : Path;
  args_out : Path;
  args_mode : string;
  args_width : Z;
  args_height : Z;
  args_percent : float;
  args_canvas_height : Z;
  args_font : string;
  args_logo : string;
  args_tile : string;
  args_jobs : Z
}.

(** [ex.submit(task)] for each task in turn. A task is run to its end
    when it is submitted: the interleaving of the workers is not
    modelled, only what each future ends up holding. *)
Fixpoint submit_all {A} (tasks : list (M A)) : M (list (res A)) :=
  match tasks with
  | [] => mret []
  | t :: rest => fut ← capture t; futs ← submit_all rest; mret (fut :: futs)
  end.

(** The line printed for one result. *)
Definition result_line (ok : bool) (name msg : string) : string :=
  let prefix := if ok then "✓" else "✗" in
  if negb (String.eqb msg "") && negb (String.eqb msg "skip (exists)")
  then "[" +:+ prefix +:+ "] " +:+ PyPath.name (PyPath.of_str name) +:+ ": " +:+ msg
  else "[" +:+ prefix +:+ "] " +:+ PyPath.name (PyPath.of_str name).

(** The loop over [as_completed(tasks)], with its two counters. *)
Fixpoint collect (futs : list (res (bool * string * string))) (done errors : Z)
  : M (Z * Z) :=
  match futs with
  | [] => mret (done, errors)
  | fut :: rest =>
      '(ok, name, msg) ← result fut;
      _ ← print (result_line ok name msg);
      collect rest (done + 1) (if ok : bool then errors else errors + 1)
  end.

Definition summary_line (n_files errors : Z) (out_dir : Path) : string :=
  "Готово. Успешно: " +:+ pretty (n_files - errors) +:+ ", ошибок: "
    +:+ pretty errors +:+ ". Превью в: " +:+ PyPath.str out_dir.

Definition main (args : Args) : M unit :=
  _ ← check_deps;
  let in_dir := args_input args in
  let out_dir := args_out args in
  _ ← mkdir_parents out_dir;
  files ← list_videos in_dir;
  match files with
  | [] => print "Видео не найдены (расширения: *.mp4 *.mov *.mkv *.avi *.m4v *.webm)."
  | _ =>
      let logo := if String.eqb (args_logo args) "" then None
                  else Some (args_logo args) in
      _ ← print ("Найдено файлов: " +:+ pretty (Z.of_nat (length files)));
      _ ← print ("Режим: " +:+ args_mode args +:+ ", размер: "
                   +:+ pretty (args_width args) +:+ "x" +:+ pretty (args_height args)
                   +:+ ", выход: " +:+ PyPath.str out_dir);
      _ ← (if String.eqb (args_mode args) "middle"
           then print ("Процент длительности: " +:+ PyNum.format_fixed 2 (args_percent args))
           else mret tt);
      _ ← (if String.eqb (args_mode args) "styled"
           then _ ← print ("Шрифт: " +:+ args_font args);
                _ ← (if logo is Some l then print ("Логотип: " +:+ l) else mret tt);
                print ("Высота холста: " +:+ pretty (args_canvas_height args))
           else mret tt);
      _ ← (if String.eqb (args_mode args) "grid"
           then print ("Сетка: " +:+ args_tile args)
           else mret tt);
      _ ← emit (Pool (PyNum.imax 1 (args_jobs args)));
      tasks ← submit_all
                (map (λ path,
                        process_one path out_dir (args_mode args) (args_width args)
                          (args_height args) (args_percent args)
                          (args_canvas_height args) (args_font args) logo
                          (args_tile args))
                     files);
      '(done, errors) ← collect
                          (omap (λ i, tasks !! i)
                             (completion_order E (length tasks)))
                          0 0;
      print (summary_line (Z.of_nat (length files)) errors out_dir)
  end.

End Program.


(* ===================================================================== *)
(** * Vocabulary of the specification *)
(* ===================================================================== *)

Section Outcomes.

Variable E : Env.

Definition ffprobe_cmd (path : Path) : list string :=
  ["ffprobe"; "-v"; "error"; "-show_entries"; "format=duration";
   "-of"; "default=nw=1:nk=1"; PyPath.str path].

(** The world after an attempt to run [cmd]. *)
Definition after_spawn (cmd : list string) (w : World) : World :=
  match os_exec E cmd (fs w) with
  | (LaunchError _, _) => mkWorld (fs w) (trace w ++ [Spawn cmd])
  | (Exited _ _, fs') => mkWorld fs' (trace w ++ [Spawn cmd])
  end.

(** The value the probe returns, read off the outcome of [ffprobe]. *)
Definition probed (path : Path) (w : World) : float :=
  match os_exec E (ffprobe_cmd path) (fs w) with
  | (Exited 0 out, _) =>
      match float_of_output E out with
      | Some x => PyNum.fmax 0 x
      | None => 0%float
      end
  | _ => 0%float
  end.

(** The sampling rate of grid mode for [total] frames and a probed
    duration [dur], or the exception computing it raises. *)
Definition grid_rate (total : Z) (dur : float) : res Z :=
  if PrimFloat.leb dur 0 then Ok 1
  else match PyNum.truediv total dur with
       | Ok q => match PyNum.ceil q with
                 | Ok c => Ok (Z.max 1 c)
                 | Raise e => Raise e
                 end
       | Raise e => Raise e
       end.

(** What [list_videos] keeps of a directory. *)
Definition is_video (folder : Path) (w : World) (p : Path) : Prop :=
  p ≠ [] ∧ PyPath.parent p = folder ∧ fs w !! p = Some Regular ∧
  PyStr.lower (PyPath.suffix p) ∈ VIDEO_EXTS.

(** The output path of a job: the stem of the input and [.jpg] in the
    output directory, with [_grid] before the extension in grid mode. *)
Definition output_path (outdir path : Path) (mode : string) : Path :=
  PyPath.joinpath outdir
    (PyPath.stem path +:+ (if String.eqb mode "grid" then "_grid.jpg" else ".jpg")).

(** The lines, pool sizes and command lines of a trace. *)
Definition printed (t : list event) : list string :=
  omap (λ ev, if ev is Stdout line then Some line else None) t.
Definition pools (t : list event) : list Z :=
  omap (λ ev, if ev is Pool n then Some n else None) t.
Definition spawned (t : list event) : list (list string) :=
  omap (λ ev, if ev is Spawn cmd then Some cmd else None) t.

(** A computation is quiet when all it adds to the trace is processes:
    it prints nothing and creates no pool. *)
Definition quiet {A} (m : M A) : Prop :=
  ∀ w, ∃ cmds, trace (m w).2 = (trace w ++ map Spawn cmds)%list.

(** A computation returns when it raises in no world. *)
Definition returns {A} (m : M A) : Prop := ∀ w, ∃ a w', m w = (Ok a, w').


(** The start of [main], up to the list of videos. *)
Definition discover (args : Args) : M (list Path) :=
  _ ← check_deps E;
  _ ← mkdir_parents (args_out args);
  list_videos (args_input args).

(** The logo as [main] hands it to the jobs. *)
Definition logo_of (args : Args) : option string :=
  if String.eqb (args_logo args) "" then None else Some (args_logo args).

(** The task [main] submits for one video. *)
Definition job (args : Args) (path : Path) : M (bool * string * string) :=
  process_one E path (args_out args) (args_mode args) (args_width args)
    (args_height args) (args_percent args) (args_canvas_height args)
    (args_font args) (logo_of args) (args_tile args).

(** The lines [main] prints before it starts the jobs. *)
Definition announce (args : Args) (files : list Path) : list string :=
  (["Найдено файлов: " +:+ pretty (Z.of_nat (length files));
    "Режим: " +:+ args_mode args +:+ ", размер: "
      +:+ pretty (args_width args) +:+ "x" +:+ pretty (args_height args)
      +:+ ", выход: " +:+ PyPath.str (args_out args)]
   ++ (if String.eqb (args_mode args) "middle"
       then ["Процент длительности: " +:+ PyNum.format_fixed 2 (args_percent args)]
       else [])
   ++ (if String.eqb (args_mode args) "styled"
       then ["Шрифт: " +:+ args_font args]
            ++ (if logo_of args is Some l then ["Логотип: " +:+ l] else [])
            ++ ["Высота холста: " +:+ pretty (args_canvas_height args)]
       else [])
   ++ (if String.eqb (args_mode args) "grid"
       then ["Сетка: " +:+ args_tile args]
       else []))%list.

Definition no_videos_line : string :=
  "Видео не найдены (расширения: *.mp4 *.mov *.mkv *.avi *.m4v *.webm).".


(** What [main] does once the videos [files] are known and announced:
    submit, collect, sum up. *)
Definition fan_out (args : Args) (files : list Path) : M unit :=
  tasks ← submit_all (map (job args) files);
  '(done, errors) ← collect
                      (omap (λ i, tasks !! i) (completion_order E (length tasks)))
                      0 0;
  print (summary_line (Z.of_nat (length files)) errors (args_out args)).

(** The world in which the jobs start. *)
Definition announced (args : Args) (files : list Path) (w : World) : World :=
  mkWorld (fs w)
    (trace w ++ (Stdout <$> announce args files)
       ++ [Pool (Z.max 1 (args_jobs args))])%list.


(** The result of a job that finds its output in place. *)
Definition skipped (path : Path) : bool * string * string :=
  (true, PyPath.str path, "skip (exists)").


(** The values that futures hold, those that hold an exception left out. *)
Definition values {A} (futs : list (res A)) : list A :=
  omap (λ fut, if fut is Ok a then Some a else None) futs.

Definition is_Ok {A} (r : res A) : Prop := if r is Ok _ then True else False.

(** The line of a result. *)
Definition line_of (r : bool * string * string) : string :=
  result_line r.1.1 r.1.2 r.2.

(** The number of failures among results. *)
Definition failures (results : list (bool * string * string)) : Z :=
  Z.of_nat (length (filter (λ r, r.1.1 = false) results)).

End Outcomes.

(* ===================================================================== *)
(** * Vocabulary of further properties *)
(* ===================================================================== *)

(** The message [check_deps] exits with when [tool] is not found. *)
Definition missing_tool (tool : string) : exn :=
  SystemExit ("[!] " +:+ tool +:+
    " не найден. Установите FFmpeg (macOS: brew install ffmpeg).").

(** An [ffmpeg] command line that reads [inp] and writes [out]: it
    overwrites without asking, reports errors only, and names the output
    last. *)
Definition writes_to (inp out : Path) (cmd : list string) : Prop :=
  ∃ opts,
    cmd = ["ffmpeg"; "-y"; "-v"; "error"] ++ opts ++ [PyPath.str out] ∧
    PyPath.str inp ∈ opts.

(** The command lines one job may start: nothing, the probe of its video,
    one [ffmpeg] that writes its output, or the probe followed by that
    [ffmpeg]. *)
Definition job_processes (path out : Path) (cmds : list (list string)) : Prop :=
  cmds = [] ∨ cmds = [ffprobe_cmd path] ∨
  ∃ ff, writes_to path out ff ∧ (cmds = [ff] ∨ cmds = [ffprobe_cmd path; ff]).

(** A command line of a run from [in_dir] to [out_dir]: the probe of an
    entry of [in_dir], or an [ffmpeg] from such an entry to an entry of
    [out_dir]. *)
Definition run_process (in_dir out_dir : Path) (cmd : list string) : Prop :=
  ∃ p, p ≠ [] ∧ PyPath.parent p = in_dir ∧
    (cmd = ffprobe_cmd p ∨
     ∃ o, o ≠ [] ∧ PyPath.parent o = out_dir ∧ writes_to p o cmd).

(** The characters of a string. *)
Definition chars (s : string) : list ascii := list_ascii_of_string s.

(** The same environment with another completion order. *)
Definition with_order (E : Env) (order : nat → list nat) : Env :=
  mkEnv (os_exec E) (which E) (float_of_output E) (mkstemp E) order.

(** [q] is [p] or one of its ancestors below the root. *)
Definition ancestor_or_self (q p : Path) : Prop :=
  q ≠ [] ∧ ∃ rest, p = q ++ rest.

(** A component of a path: not empty, and without a slash. *)
Definition component (c : string) : Prop := c ≠ "" ∧ "/"%char ∉ chars c.


(* ===================================================================== *)
(** * A concrete environment *)
(* ===================================================================== *)

(** A small machine to run the program on: [ffprobe] answers ten seconds
    and [ffmpeg] writes the file named last on its command line, but both
    fail on [broken.mp4]; futures complete in reverse order. *)
Module Demo.

Definition mentions_broken (args : list string) : bool :=
  existsb (String.eqb "/in/broken.mp4") args.

Definition exec (cmd : list string) (files : gmap Path kind)
  : proc_outcome * gmap Path kind :=
  match cmd with
  | tool :: args =>
      if String.eqb tool "ffprobe" then
        if mentions_broken args
        then (Exited 1 "Invalid data found when processing input", files)
        else (Exited 0 "10.000000", files)
      else if String.eqb tool "ffmpeg" then
        if mentions_broken args
        then (Exited 1 "", files)
        else (Exited 0 "", <[PyPath.of_str (List.last args "") := Regular]> files)
      else (LaunchError "[Errno 2] No such file or directory", files)
  | [] => (LaunchError "[Errno 2] No such file or directory", files)
  end.

Definition env : Env := {|
  os_exec := exec;
  which := λ _, true;
  float_of_output := λ out,
    if String.eqb out "10.000000" then Some 10%float else None;
  mkstemp := λ _, ["tmp"; "tmpq1w2e3.txt"];
  completion_order := λ n, rev (seq 0 n)
|}.

Definition disk : gmap Path kind :=
  list_to_map
    [ ([], Directory);
      (["in"], Directory);
      (["in"; "b.mov"], Regular);
      (["in"; "a.mp4"], Regular);
      (["in"; "broken.mp4"], Regular);
      (["in"; "note.txt"], Regular);
      (["in"; "C.MKV"], Regular);
      (["in"; "sub"], Directory);
      (["in"; "sub"; "deep.mp4"], Regular);
      (["in"; "dir.mp4"], Directory);
      (["tmp"], Directory) ].

Definition world : World := mkWorld disk [].

(** The same machine on a later day: the thumbnails of [a.mp4] are there. *)
Definition disk_rerun : gmap Path kind :=
  <[["thumbs"; "a_grid.jpg"] := Regular]>
    (<[["thumbs"; "a.jpg"] := Regular]> (<[["thumbs"] := Directory]> disk)).

Definition rerun : World := mkWorld disk_rerun [].

Definition videos : list Path :=
  [["in"; "C.MKV"]; ["in"; "a.mp4"]; ["in"; "b.mov"]; ["in"; "broken.mp4"]].

Definition args (mode tile : string) : Args := {|
  args_input := ["in"];
  args_out := ["thumbs"];
  args_mode := mode;
  args_width := 640;
  args_height := -2;
  args_percent := 0x1.3333333333333p-2%float;
  args_canvas_height := 720;
  args_font := "/Library/Fonts/Arial Bold.ttf";
  args_logo := "";
  args_tile := tile;
  args_jobs := 1
|}.

End Demo.

(** Other states of the same machine. *)
Module Scenario.

(** A disk with nothing on it. *)
Definition bare : World := mkWorld ∅ [].

(** The machine of [Demo] after a run in best-frame mode that went well:
    every thumbnail is there. *)
Definition complete : World :=
  mkWorld (<[["thumbs"; "C.jpg"] := Regular]>
             (<[["thumbs"; "b.jpg"] := Regular]>
                (<[["thumbs"; "broken.jpg"] := Regular]> Demo.disk_rerun))) [].

(** The machine of [Demo] with a regular file where the output directory
    should be. *)
Definition blocked : World :=
  mkWorld (<[["thumbs"] := Regular]> Demo.disk) [].


End Scenario.


(* ===================================================================== *)
(** * Reasoning about [M] *)
(* ===================================================================== *)

Lemma bind_Ok {A B} (m : M A) (k : A → M B) w a w' :
  m w = (Ok a, w') → (m ≫= k) w = k a w'.
Proof. intros H. unfold mbind, M_bind. by rewrite H. Qed.

Lemma bind_Raise {A B} (m : M A) (k : A → M B) w e w' :
  m w = (Raise e, w') → (m ≫= k) w = (Raise e, w').
Proof. intros H. unfold mbind, M_bind. by rewrite H. Qed.

Lemma try_except_Ok {A} (body : M A) h w a w' :
  body w = (Ok a, w') → try_except body h w = (Ok a, w').
Proof. intros H. unfold try_except. by rewrite H. Qed.

Lemma try_except_Raise {A} (body : M A) h w e w' :
  body w = (Raise e, w') → is_Exception e = true →
  try_except body h w = h e w'.
Proof. intros H He. unfold try_except. by rewrite H, He. Qed.

(** ** Floats and ints: what the comparisons of the program give *)

(** [ceil] of a finite float [±m·2^e] is the least integer not below it:
    for a negative exponent, [c - 1 < n / 2^k <= c] with [n = ±m]. *)
Lemma ceil_div_bounds (n k : Z) :
  0 ≤ k →
  let c := - ((- n) / 2 ^ k) in
  (c - 1) * 2 ^ k < n ≤ c * 2 ^ k.
Proof.
  intros Hk c. assert (Hd : 0 < 2 ^ k) by (apply Z.pow_pos_nonneg; lia).
  pose proof (Z.div_mod (- n) (2 ^ k) ltac:(lia)) as Hdm.
  pose proof (Z.mod_pos_bound (- n) (2 ^ k) Hd) as Hr.
  subst c. nia.
Qed.

Example ceil_examples :
  PyNum.ceil 0x1.999999999999ap-2 = Ok 1 ∧      (* 0.4 *)
  PyNum.ceil 2.5 = Ok 3 ∧
  PyNum.ceil (-2.5) = Ok (-2) ∧
  PyNum.ceil 3 = Ok 3 ∧
  PyNum.ceil (-0) = Ok 0 ∧
  PyNum.ceil 0x0.0000000000001p-1022 = Ok 1 ∧  (* the least positive float *)
  PyNum.ceil infinity
  = Raise (OverflowError "cannot convert float infinity to integer") ∧
  PyNum.ceil nan = Raise (ValueError "cannot convert float NaN to integer").
Proof. vm_compute. repeat split. Qed.

Example float_of_int_examples :
  PyNum.float_of_int 4 = Some 4%float ∧
  PyNum.float_of_int (-3) = Some (-3)%float ∧
  PyNum.float_of_int 9007199515875289 = Some 9007199515875288%float ∧
  PyNum.float_of_int (2 ^ 1024) = None.
Proof. vm_compute. repeat split. Qed.

Example format_fixed_examples :
  PyNum.format_fixed 3 0 = "0.000" ∧
  PyNum.format_fixed 3 3 = "3.000" ∧
  PyNum.format_fixed 3 0x1.0624dd2f1a9fcp-11 = "0.001" ∧  (* 0.0005 *)
  PyNum.format_fixed 2 0.125 = "0.12" ∧
  PyNum.format_fixed 2 0.375 = "0.38" ∧
  PyNum.format_fixed 2 0x1.3333333333333p-2 = "0.30" ∧
  PyNum.format_fixed 3 (-0) = "-0.000" ∧
  PyNum.format_fixed 3 infinity = "inf".
Proof. vm_compute. repeat split. Qed.

(** The rate of grid mode on a few durations: ten seconds, half a second,
    unknown, and the least positive float, whose quotient overflows. *)
Example grid_rate_examples :
  grid_rate 4 10 = Ok 1 ∧
  grid_rate 9 0.5 = Ok 18 ∧
  grid_rate 9 0 = Ok 1 ∧
  grid_rate 4 infinity = Ok 1 ∧
  grid_rate 4 0x0.0000000000001p-1022
  = Raise (OverflowError "cannot convert float infinity to integer") ∧
  grid_rate (10 ^ 400) 1
  = Raise (OverflowError "int too large to convert to float").
Proof. vm_compute. repeat split. Qed.

Lemma ltb_leb (x y : float) : PrimFloat.ltb x y = true → PrimFloat.leb x y = true.
Proof.
  rewrite ltb_spec, leb_spec. unfold SFltb, SFleb.
  by destruct (SFcompare _ _) as [[]|].
Qed.

Lemma fmax_zero_nonneg (x : float) : PrimFloat.leb 0 (PyNum.fmax 0 x) = true.
Proof.
  unfold PyNum.fmax. destruct (PrimFloat.ltb 0 x) eqn:H.
  - by apply ltb_leb.
  - reflexivity.
Qed.

Lemma fmax_zero_cases (x : float) :
  PyNum.fmax 0 x = 0%float ∨ PrimFloat.ltb 0 (PyNum.fmax 0 x) = true.
Proof. unfold PyNum.fmax. destruct (PrimFloat.ltb 0 x) eqn:H; auto. Qed.

Lemma imax_max (a b : Z) : PyNum.imax a b = Z.max a b.
Proof. unfold PyNum.imax. destruct (Z.ltb_spec a b); lia. Qed.

(* ===================================================================== *)
(** * Duration probe and job runner *)
(* ===================================================================== *)

Section Runner.

Variable E : Env.

Lemma spawn_eq cmd w :
  spawn E cmd w =
    (match os_exec E cmd (fs w) with
     | (LaunchError msg, _) => Raise (OSError msg)
     | (Exited rc out, _) => Ok (rc, out)
     end, after_spawn E cmd w).
Proof.
  unfold spawn, after_spawn.
  by destruct (os_exec E cmd (fs w)) as [[msg|rc out] fs'].
Qed.

Lemma ffprobe_duration_eq path w :
  ffprobe_duration E path w
  = (Ok (probed E path w), after_spawn E (ffprobe_cmd path) w).
Proof.
  unfold ffprobe_duration, probed, try_except, check_output, parse_float,
    mbind, M_bind, mret, M_ret, raise.
  fold (ffprobe_cmd path). rewrite spawn_eq.
  destruct (os_exec E (ffprobe_cmd path) (fs w)) as [[msg|rc out] fs'] eqn:Hx; simpl.
  - reflexivity.
  - destruct rc as [|rc|rc]; simpl; try reflexivity.
    destruct (float_of_output E out); reflexivity.
Qed.

Lemma probed_nonneg path w : PrimFloat.leb 0 (probed E path w) = true.
Proof.
  unfold probed.
  destruct (os_exec _ _ _) as [[msg|[|rc|rc] out] fs']; try reflexivity.
  destruct (float_of_output E out); [apply fmax_zero_nonneg | reflexivity].
Qed.

Lemma probed_cases path w :
  probed E path w = 0%float ∨ PrimFloat.ltb 0 (probed E path w) = true.
Proof.
  unfold probed.
  destruct (os_exec _ _ _) as [[msg|[|rc|rc] out] fs']; auto.
  destruct (float_of_output E out); [apply fmax_zero_cases | auto].
Qed.

(** C4 — The duration probe never propagates an error. Whatever [ffprobe]
    does, the call returns a float [d] with [0 <= d]: when the tool cannot
    be started, when it exits with a status other than zero, and when its
    output is not a number, [d] is [0.0]; when the output parses to [x],
    [d] is [max(0.0, x)]. *)
Theorem ffprobe_duration_never_raises (path : Path) (w : World) :
  ∃ d w',
    ffprobe_duration E path w = (Ok d, w') ∧
    PrimFloat.leb 0 d = true ∧
    match os_exec E (ffprobe_cmd path) (fs w) with
    | (LaunchError _, _) => d = 0%float
    | (Exited rc out, _) =>
        if rc =? 0 then
          match float_of_output E out with
          | Some x => d = PyNum.fmax 0 x
          | None => d = 0%float
          end
        else d = 0%float
    end.
Proof.
  exists (probed E path w), (after_spawn E (ffprobe_cmd path) w).
  split; [apply ffprobe_duration_eq|]. split; [apply probed_nonneg|].
  unfold probed.
  destruct (os_exec _ _ _) as [[msg|[|rc|rc] out] fs']; simpl; try reflexivity.
  by destruct (float_of_output E out).
Qed.

(** What [run] returns, read off the outcome of the command. *)
Lemma run_eq cmd w :
  run E cmd w =
    (Ok match os_exec E cmd (fs w) with
        | (LaunchError msg, _) => (false, "Error: " +:+ msg)
        | (Exited rc _, _) =>
            if rc =? 0 then (true, "")
            else (false, "Command failed (" +:+ pretty rc +:+ "): "
                           +:+ PyStr.join " " cmd)
        end,
     after_spawn E cmd w).
Proof.
  unfold run, try_except, subprocess_run, mbind, M_bind, mret, M_ret, raise.
  rewrite spawn_eq.
  destruct (os_exec E cmd (fs w)) as [[msg|rc out] fs']; simpl; [reflexivity|].
  by destruct (rc =? 0).
Qed.

(** C5 — The job runner returns, and never raises. It reports success
    exactly when the process was started and exited with status 0 (the
    diagnostic is then empty). A status other than zero gives a failure
    whose diagnostic holds the status and the whole command line; a
    process that could not be started gives a failure whose diagnostic
    holds the text of the exception. *)
Theorem run_never_raises (cmd : list string) (w : World) :
  ∃ ok msg w',
    run E cmd w = (Ok (ok, msg), w') ∧
    trace w' = (trace w ++ [Spawn cmd])%list ∧
    match os_exec E cmd (fs w) with
    | (Exited rc _, _) =>
        (ok = true ↔ rc = 0) ∧
        (rc = 0 → msg = "") ∧
        (rc ≠ 0 → msg = "Command failed (" +:+ pretty rc +:+ "): "
                          +:+ PyStr.join " " cmd)
    | (LaunchError text, _) => ok = false ∧ msg = "Error: " +:+ text
    end.
Proof.
  rewrite run_eq. unfold after_spawn.
  destruct (os_exec E cmd (fs w)) as [[text|rc out] fs'].
  - by eexists _, _, _.
  - destruct (Z.eqb_spec rc 0) as [->|Hrc]; eexists _, _, _;
      (split; [reflexivity|]); (split; [reflexivity|]); naive_solver.
Qed.

End Runner.

(* ===================================================================== *)
(** * Command builders *)
(* ===================================================================== *)

Section Builders.

Variable E : Env.

(** C3 — Percentage mode. The builder probes the duration [dur] and puts
    the seek time [ts], formatted with three decimals, after [-ss]. When
    the probe gives 0 (unknown), [ts] is 0; otherwise [ts] is
    [max(0, dur * percent)]. In both cases [0 <= ts]. *)
Theorem build_middle_cmd_seek (inp out : Path) (width height : Z)
    (percent : float) (w : World) :
  ∃ dur ts w',
    ffprobe_duration E inp w = (Ok dur, w') ∧
    build_middle_cmd E inp out width height percent w
    = (Ok ["ffmpeg"; "-y"; "-v"; "error"; "-ss"; PyNum.format_fixed 3 ts;
           "-i"; PyPath.str inp; "-frames:v"; "1";
           "-vf"; "scale=" +:+ pretty width +:+ ":" +:+ pretty height;
           PyPath.str out], w') ∧
    (dur = 0%float → ts = 0%float) ∧
    (dur ≠ 0%float → ts = PyNum.fmax 0 (PrimFloat.mul dur percent)) ∧
    PrimFloat.leb 0 ts = true.
Proof.
  pose proof (ffprobe_duration_eq E inp w) as Hp.
  exists (probed E inp w).
  exists (if PrimFloat.ltb 0 (probed E inp w)
          then PyNum.fmax 0 (PrimFloat.mul (probed E inp w) percent)
          else 0%float).
  exists (after_spawn E (ffprobe_cmd inp) w).
  split; [exact Hp|]. split.
  { unfold build_middle_cmd. by rewrite (bind_Ok _ _ _ _ _ Hp). }
  destruct (probed_cases E inp w) as [Hz|Hpos].
  - rewrite Hz. change (PrimFloat.ltb 0 0) with false. cbv iota.
    split; [done|]. split; [done|reflexivity].
  - rewrite Hpos. split; [|split; [done|apply fmax_zero_nonneg]].
    intros Hz. rewrite Hz in Hpos. discriminate.
Qed.


(** The sampling rate of grid mode, as line 118 computes it. *)
Lemma grid_rate_eq (total : Z) (dur : float) (w : World) :
  (if PrimFloat.leb dur 0%float then mret 1
   else q ← result (PyNum.truediv total dur);
        c ← result (PyNum.ceil q);
        mret (PyNum.imax 1 c)) w
  = (grid_rate total dur, w).
Proof.
  unfold grid_rate. destruct (PrimFloat.leb dur 0); [reflexivity|].
  unfold mbind, M_bind, mret, M_ret.
  destruct (PyNum.truediv total dur) as [q|e]; simpl; [|reflexivity].
  destruct (PyNum.ceil q) as [c|e]; simpl; [|reflexivity].
  by rewrite imax_max.
Qed.


(** The builder on a valid spec. *)
Lemma build_grid_cmd_eq inp out width tile cols rows w :
  parse_tile tile = Some (cols, rows) →
  build_grid_cmd E inp out width tile w
  = (match grid_rate (cols * rows) (probed E inp w) with
     | Ok fps =>
         Ok ["ffmpeg"; "-y"; "-v"; "error"; "-i"; PyPath.str inp;
             "-vf"; "fps=" +:+ pretty fps +:+ ",scale="
                    +:+ pretty (Z.max 1 (width / cols))
                    +:+ ":-2,tile=" +:+ pretty cols +:+ "x" +:+ pretty rows;
             "-frames:v"; pretty (cols * rows);
             PyPath.str out]
     | Raise e => Raise e
     end, after_spawn E (ffprobe_cmd inp) w).
Proof.
  intros Hv. unfold build_grid_cmd. rewrite Hv.
  rewrite (bind_Ok (mret (cols, rows)) _ w (cols, rows) w eq_refl).
  cbv beta iota zeta.
  rewrite (bind_Ok _ _ _ _ _ (ffprobe_duration_eq E inp w)).
  unfold mbind at 1, M_bind at 1. rewrite grid_rate_eq.
  destruct (grid_rate _ _) as [fps|e]; [|reflexivity].
  by rewrite imax_max.
Qed.

Lemma build_grid_cmd_invalid inp out width tile w :
  parse_tile tile = None →
  build_grid_cmd E inp out width tile w
  = (Raise (ValueError ("Неверный --tile: " +:+ tile)), w).
Proof. intros Hv. unfold build_grid_cmd. by rewrite Hv. Qed.


End Builders.

(* ===================================================================== *)
(** * File processor *)
(* ===================================================================== *)

Section Processor.

Variable E : Env.

Lemma output_path_eq outdir path mode :
  (if String.eqb mode "grid"
   then PyPath.joinpath outdir (PyPath.stem path +:+ "_grid.jpg")
   else PyPath.joinpath outdir (PyPath.stem path +:+ ".jpg"))
  = output_path outdir path mode.
Proof. unfold output_path. by destruct (String.eqb mode "grid"). Qed.

Lemma exists_present p w : is_Some (fs w !! p) → exists_ p w = (Ok true, w).
Proof. intros H. unfold exists_. by rewrite bool_decide_eq_true_2. Qed.

Lemma exists_absent p w : fs w !! p = None → exists_ p w = (Ok false, w).
Proof.
  intros H. unfold exists_. rewrite bool_decide_eq_false_2; [done|].
  rewrite H. by intros [? ?].
Qed.

(** The job of a video whose output is there. *)
Lemma process_one_present path outdir mode width height percent canvas_h font
    logo tile w :
  is_Some (fs w !! output_path outdir path mode) →
  process_one E path outdir mode width height percent canvas_h font logo tile w
  = (Ok (true, PyPath.str path, "skip (exists)"), w).
Proof.
  intros H. unfold process_one. cbv zeta. rewrite output_path_eq.
  by rewrite (bind_Ok _ _ _ _ _ (exists_present _ _ H)).
Qed.

(** C6 — Skip if the output exists. In every mode, when the output path
    derived from the input (its stem and [.jpg], with [_grid] in grid
    mode) is present, the file processor returns success with the
    diagnostic "skip (exists)" and leaves the world as it found it: no
    process is started and no file is touched, whatever the input file
    holds. *)
Theorem process_one_skip (path outdir : Path) (mode : string)
    (width height : Z) (percent : float) (canvas_h : Z) (font : string)
    (logo : option string) (tile : string) (w : World) :
  is_Some (fs w !! output_path outdir path mode) →
  ∃ w',
    process_one E path outdir mode width height percent canvas_h font logo tile w
    = (Ok (true, PyPath.str path, "skip (exists)"), w') ∧
    w' = w ∧ spawned (trace w') = spawned (trace w) ∧ fs w' = fs w.
Proof.
  intros H. exists w. split; [by apply process_one_present|done].
Qed.

(** The job of a video whose output is not there, mode by mode. *)
Lemma process_one_smart path outdir width height percent canvas_h font logo
    tile w :
  fs w !! output_path outdir path "smart" = None →
  process_one E path outdir "smart" width height percent canvas_h font logo tile w
  = ('(ok, msg) ← run E (build_smart_cmd path (output_path outdir path "smart")
                           width height);
     mret (ok, PyPath.str path, msg)) w.
Proof.
  intros H. unfold process_one. cbv zeta. rewrite output_path_eq.
  by rewrite (bind_Ok _ _ _ _ _ (exists_absent _ _ H)).
Qed.

Lemma process_one_middle path outdir width height percent canvas_h font logo
    tile w :
  fs w !! output_path outdir path "middle" = None →
  process_one E path outdir "middle" width height percent canvas_h font logo tile w
  = (cmd ← build_middle_cmd E path (output_path outdir path "middle")
             width height percent;
     '(ok, msg) ← run E cmd;
     mret (ok, PyPath.str path, msg)) w.
Proof.
  intros H. unfold process_one. cbv zeta. rewrite output_path_eq.
  by rewrite (bind_Ok _ _ _ _ _ (exists_absent _ _ H)).
Qed.

Lemma process_one_styled path outdir width height percent canvas_h font logo
    tile w :
  fs w !! output_path outdir path "styled" = None →
  process_one E path outdir "styled" width height percent canvas_h font logo tile w
  = ('(cmd, tmpfile) ← build_styled_cmd E path (output_path outdir path "styled")
                         width height canvas_h font logo
                         (title_from_filename path);
     try_finally
       ('(ok, msg) ← run E cmd;
        mret (ok, PyPath.str path, msg))
       (try_except (os_remove tmpfile) (λ _, mret tt))) w.
Proof.
  intros H. unfold process_one. cbv zeta. rewrite output_path_eq.
  by rewrite (bind_Ok _ _ _ _ _ (exists_absent _ _ H)).
Qed.

Lemma process_one_grid path outdir width height percent canvas_h font logo
    tile w :
  fs w !! output_path outdir path "grid" = None →
  process_one E path outdir "grid" width height percent canvas_h font logo tile w
  = (cmd ← build_grid_cmd E path (output_path outdir path "grid") width tile;
     '(ok, msg) ← run E cmd;
     mret (ok, PyPath.str path, msg)) w.
Proof.
  intros H. unfold process_one. cbv zeta. rewrite output_path_eq.
  by rewrite (bind_Ok _ _ _ _ _ (exists_absent _ _ H)).
Qed.

Lemma process_one_unknown path outdir mode width height percent canvas_h font
    logo tile w :
  fs w !! output_path outdir path mode = None →
  String.eqb mode "smart" = false → String.eqb mode "middle" = false →
  String.eqb mode "styled" = false → String.eqb mode "grid" = false →
  process_one E path outdir mode width height percent canvas_h font logo tile w
  = (Ok (false, PyPath.str path, "unknown mode: " +:+ mode), w).
Proof.
  intros H H1 H2 H3 H4. unfold process_one. cbv zeta. rewrite output_path_eq.
  rewrite (bind_Ok _ _ _ _ _ (exists_absent _ _ H)).
  by rewrite H1, H2, H3, H4.
Qed.



End Processor.

(* ===================================================================== *)
(** * The temporary title file of styled mode *)
(* ===================================================================== *)

Section Styled.

Variable E : Env.


(** [try: os.remove(p) / except Exception: pass] never raises. Afterwards
    [p] is gone; only a directory at [p] is left where it is. *)
Lemma remove_quietly p w :
  ∃ w',
    try_except (os_remove p) (λ _, mret tt) w = (Ok tt, w') ∧
    trace w' = trace w ∧
    (fs w' !! p = None ∨
     fs w !! p = Some Directory ∧ fs w' !! p = Some Directory).
Proof.
  unfold try_except, os_remove.
  destruct (fs w !! p) as [[]|] eqn:Hp; simpl; eexists;
    (split; [reflexivity|]); (split; [reflexivity|]); simpl;
    rewrite ?lookup_delete_eq; auto.
Qed.

(** The [finally] clause of styled mode runs whatever the body does, also
    when the body raises, and leaves the result of the body alone. *)
Lemma try_finally_remove {A} (body : M A) p w r w1 :
  body w = (r, w1) →
  ∃ w',
    try_finally body (try_except (os_remove p) (λ _, mret tt)) w = (r, w') ∧
    trace w' = trace w1 ∧
    (fs w' !! p = None ∨
     fs w1 !! p = Some Directory ∧ fs w' !! p = Some Directory).
Proof.
  intros Hb. unfold try_finally. rewrite Hb.
  destruct (remove_quietly p w1) as (w' & -> & Ht & Hp). by exists w'.
Qed.


End Styled.

(* ===================================================================== *)
(** * Discovery *)
(* ===================================================================== *)

Lemma path_le_total : Total PyPath.le.
Proof.
  intros p. induction p as [|a p IH]; intros [|b q]; simpl; auto.
  destruct (decide (a = b)) as [->|Hne].
  - destruct (IH q); auto.
  - destruct (total String.le a b); auto.
Qed.

Lemma path_le_trans : Transitive PyPath.le.
Proof.
  intros p. induction p as [|a p IH]; intros [|b q] [|c r]; simpl; try done.
  intros [[Hab Hle1]|[-> Hpq]] [[Hbc Hle2]|[-> Hqr]]; auto.
  - left. split; [|by etrans].
    intros ->. apply Hab. by apply (anti_symm String.le).
  - right. split; [done|]. by eapply IH.
Qed.

(** Among the entries of one directory the order of paths is the order of
    their names. *)
Lemma path_le_siblings (folder : Path) (a b : string) :
  PyPath.le (folder ++ [a])%list (folder ++ [b])%list → String.le a b.
Proof.
  induction folder as [|c folder IH]; simpl.
  - intros [[_ H]|[-> _]]; [done|reflexivity].
  - intros [[H _]|[_ H]]; [done|auto].
Qed.

Lemma path_split (p : Path) :
  p ≠ [] → p = (PyPath.parent p ++ [PyPath.name p])%list.
Proof.
  intros H. unfold PyPath.parent, PyPath.name.
  by apply app_removelast_last.
Qed.

Lemma StronglySorted_among {A} (R R' : relation A) (P : A → Prop) l :
  (∀ x y, P x → P y → R x y → R' x y) →
  Forall P l → StronglySorted R l → StronglySorted R' l.
Proof.
  intros HR HP Hs. induction Hs as [|x l Hs IH Hx]; [constructor|].
  apply Forall_cons in HP as [HPx HPl]. constructor; [auto|].
  rewrite Forall_forall in *. intros y Hy. apply HR; auto.
  all: apply HPl || apply Hx; done.
Qed.

(** C7 — File discovery. In a directory, [list_videos] returns exactly the
    entries of that directory itself (nothing from below it) that are
    regular files and whose suffix, lowered, is one of the six recognised
    extensions; each once, in the order of paths, which among the entries
    of one directory is the order of their names. It reads the directory
    and changes nothing. *)
Theorem list_videos_spec (folder : Path) (w : World) :
  fs w !! folder = Some Directory →
  ∃ files,
    list_videos folder w = (Ok files, w) ∧
    (∀ p, p ∈ files ↔
       p ≠ [] ∧ PyPath.parent p = folder ∧ fs w !! p = Some Regular ∧
       PyStr.lower (PyPath.suffix p) ∈ VIDEO_EXTS) ∧
    NoDup files ∧
    StronglySorted PyPath.le files ∧
    StronglySorted (λ p q, String.le (PyPath.name p) (PyPath.name q)) files.
Proof.
  intros Hdir. unfold list_videos, iterdir, mbind, M_bind. rewrite Hdir.
  eexists. split; [reflexivity|].
  set (entries := filter _ (filter _ _)).
  assert (Hmem : ∀ p, p ∈ merge_sort PyPath.le entries ↔ is_video folder w p).
  { intros p. rewrite merge_sort_Permutation. unfold entries, is_video, is_file.
    rewrite !list_elem_of_filter, bool_decide_eq_true, list_elem_of_fmap.
    split.
    - intros [[Hreg Hext] [[Hne Hpar] _]]. done.
    - intros (Hne & Hpar & Hreg & Hext). repeat split; try done.
      exists (p, Regular). split; [done|]. by apply elem_of_map_to_list. }
  split; [exact Hmem|]. split; [|split].
  - rewrite merge_sort_Permutation. unfold entries.
    do 2 apply NoDup_filter. apply NoDup_fst_map_to_list.
  - apply (StronglySorted_merge_sort _ (Transitive0 := path_le_trans)
             (Total0 := path_le_total)).
  - eapply (StronglySorted_among PyPath.le _ (is_video folder w)).
    + intros p q (Hp & Hpp & _) (Hq & Hqp & _) Hle.
      rewrite (path_split p Hp), (path_split q Hq), Hpp, Hqp in Hle.
      by apply path_le_siblings in Hle.
    + apply Forall_forall. intros p Hp. by apply Hmem.
    + apply (StronglySorted_merge_sort _ (Transitive0 := path_le_trans)
               (Total0 := path_le_total)).
Qed.


(* ===================================================================== *)
(** * Jobs add nothing to the trace but processes *)
(* ===================================================================== *)








Section Quiet.

Variable E : Env.

Lemma quiet_spawn cmd : quiet (spawn E cmd).
Proof. intros w. exists [cmd]. rewrite spawn_eq. unfold after_spawn.
  by destruct (os_exec E cmd (fs w)) as [[]]. Qed.










End Quiet.

(* ===================================================================== *)
(** * Jobs return, and what they return names their video *)
(* ===================================================================== *)

Lemma returns_ret {A} (a : A) : returns (mret a).
Proof. intros w. by exists a, w. Qed.

Lemma returns_bind {A B} (m : M A) (k : A → M B) :
  returns m → (∀ a, returns (k a)) → returns (m ≫= k).
Proof.
  intros Hm Hk w. destruct (Hm w) as (a & w1 & H1).
  destruct (Hk a w1) as (b & w2 & H2). exists b, w2.
  by rewrite (bind_Ok _ _ _ _ _ H1).
Qed.





Section Returns.

Variable E : Env.

Lemma returns_run cmd : returns (run E cmd).
Proof. intros w. rewrite run_eq. by eexists _, _. Qed.



Lemma returns_run_then (cmd : list string) (name : string) :
  returns ('(ok, msg) ← run E cmd; mret (ok, name, msg)).
Proof.
  apply returns_bind; [apply returns_run|]. intros [ok msg]. apply returns_ret.
Qed.




(** In grid mode a job returns when the tile spec is valid and the rate
    can be computed for whatever the probe answers. *)
Lemma returns_process_one_grid path outdir width height percent canvas_h font
    logo tile cols rows :
  parse_tile tile = Some (cols, rows) →
  (∀ w, is_Ok (grid_rate (cols * rows) (probed E path w))) →
  returns (process_one E path outdir "grid" width height percent canvas_h font
             logo tile).
Proof.
  intros Hv Hrate. unfold process_one. cbv zeta.
  apply returns_bind; [intros w; by eexists _, _|].
  intros [|]; [apply returns_ret|]. cbn [String.eqb Ascii.eqb Bool.eqb].
  apply returns_bind; [|intros cmd; apply returns_run_then].
  intros w. rewrite (build_grid_cmd_eq E _ _ _ _ _ _ _ Hv).
  specialize (Hrate w). destruct (grid_rate _ _); [by eexists _, _|done].
Qed.


End Returns.

(* ===================================================================== *)
(** * The driver *)
(* ===================================================================== *)

Lemma printed_app t1 t2 : printed (t1 ++ t2) = (printed t1 ++ printed t2)%list.
Proof. apply omap_app. Qed.


Lemma spawned_app t1 t2 : spawned (t1 ++ t2) = (spawned t1 ++ spawned t2)%list.
Proof. apply omap_app. Qed.

Lemma printed_Stdout ls : printed (Stdout <$> ls) = ls.
Proof. induction ls as [|l ls IH]; [done|]. simpl. unfold printed in *. simpl. by f_equal. Qed.


Lemma spawned_Stdout ls : spawned (Stdout <$> ls) = [].
Proof. by induction ls. Qed.



(** The futures of a list, taken in an order that names each of them
    once, are that list up to the order. *)
Lemma lookup_all_from {A} (pre l : list A) :
  omap (λ i, (pre ++ l) !! i) (seq (length pre) (length l)) = l.
Proof.
  revert pre. induction l as [|a l IH]; intros pre; [done|].
  simpl. rewrite list_lookup_middle by done. f_equal.
  specialize (IH (pre ++ [a])%list).
  rewrite length_app, <- app_assoc in IH. simpl in IH.
  by rewrite Nat.add_1_r in IH.
Qed.

Lemma completed_Permutation {A} (l : list A) (order : list nat) :
  order ≡ₚ seq 0 (length l) → omap (λ i, l !! i) order ≡ₚ l.
Proof. intros ->. pose proof (lookup_all_from [] l) as H. simpl in H. by rewrite H. Qed.

Lemma values_cons {A} (a : A) futs : values (Ok a :: futs) = a :: values futs.
Proof. reflexivity. Qed.

Lemma values_Ok {A} (rs : list A) : values (Ok <$> rs) = rs.
Proof.
  induction rs as [|r rs IH]; [done|].
  by rewrite fmap_cons, values_cons, IH.
Qed.

(** The loop over futures that all hold a value: each gets its line, in
    the order of the loop, and the counters count. *)
Lemma collect_values futs done errors w :
  Forall is_Ok futs →
  collect futs done errors w
  = (Ok (done + Z.of_nat (length futs), errors + failures (values futs)),
     mkWorld (fs w) (trace w ++ (Stdout <$> (line_of <$> values futs)))).
Proof.
  intros H. revert done errors w.
  induction H as [|[[[ok name] msg]|e] futs Hx Hf IH]; intros done errors w.
  - simpl. unfold mret, M_ret, failures. simpl.
    rewrite !Z.add_0_r, app_nil_r. by destruct w.
  - simpl. unfold mbind, M_bind, print, emit. simpl. rewrite IH. simpl.
    f_equal; [|by rewrite <- app_assoc].
    do 2 f_equal; [lia|]. unfold failures, values. simpl.
    destruct ok; simpl; [|lia].
    by rewrite filter_cons_False by done.
  - destruct Hx.
Qed.



Lemma print_bind {B} line (k : unit → M B) w :
  (print line ≫= k) w = k tt (mkWorld (fs w) (trace w ++ [Stdout line])).
Proof. reflexivity. Qed.

Lemma emit_bind {B} ev (k : unit → M B) w :
  (emit ev ≫= k) w = k tt (mkWorld (fs w) (trace w ++ [ev])).
Proof. reflexivity. Qed.

Lemma ret_bind {A B} (a : A) (k : A → M B) w : (mret a ≫= k) w = k a w.
Proof. reflexivity. Qed.

Lemma bind_assoc {A B C} (m : M A) (k1 : A → M B) (k2 : B → M C) w :
  ((m ≫= k1) ≫= k2) w = (m ≫= λ a, k1 a ≫= k2) w.
Proof. unfold mbind, M_bind. by destruct (m w) as [[a|e] w1]. Qed.

Section Driver.

Variable E : Env.

(** [main] once the videos are known: nothing found ends the run with one
    line; otherwise the run is announced, a pool is created, and the jobs
    are fanned out. *)
Lemma main_discovered args w files w0 :
  discover E args w = (Ok files, w0) →
  main E args w
  = match files with
    | [] => print no_videos_line w0
    | _ => fan_out E args files (announced args files w0)
    end.
Proof.
  intros H. unfold discover in H. unfold main.
  destruct (check_deps E w) as [[[]|e] w1] eqn:H1;
    [|by rewrite (bind_Raise _ _ _ _ _ H1) in H].
  rewrite (bind_Ok _ _ _ _ _ H1) in H. rewrite (bind_Ok _ _ _ _ _ H1).
  destruct (mkdir_parents (args_out args) w1) as [[[]|e] w2] eqn:H2;
    [|by rewrite (bind_Raise _ _ _ _ _ H2) in H].
  rewrite (bind_Ok _ _ _ _ _ H2) in H. rewrite (bind_Ok _ _ _ _ _ H2).
  cbv zeta. rewrite (bind_Ok _ _ _ _ _ H).
  destruct files as [|p files]; [reflexivity|].
  remember (p :: files) as fl eqn:Hfl. clear Hfl.
  unfold fan_out, announced, announce, job, logo_of.
  rewrite !print_bind.
  destruct (String.eqb (args_mode args) "middle");
    destruct (String.eqb (args_mode args) "styled");
    destruct (String.eqb (args_logo args) "");
    destruct (String.eqb (args_mode args) "grid");
    repeat (rewrite bind_assoc || rewrite print_bind || rewrite ret_bind
            || rewrite emit_bind);
    cbn [fs trace fmap list_fmap app]; rewrite imax_max, <- ?app_assoc;
    reflexivity.
Qed.




(** Discovery adds nothing to the trace. *)
Lemma mkdir_go_trace pre rest w :
  trace (mkdir_go pre rest w).2 = trace w.
Proof.
  revert pre w. induction rest as [|c rest IH]; intros pre w; [done|].
  simpl. destruct (fs w !! PyPath.joinpath pre c) as [[]|]; by rewrite ?IH.
Qed.

Lemma check_deps_trace w : trace (check_deps E w).2 = trace w.
Proof.
  unfold check_deps, for_each, mbind, M_bind, mret, M_ret, raise.
  by repeat destruct (which E _).
Qed.

Lemma list_videos_trace folder w : trace (list_videos folder w).2 = trace w.
Proof.
  unfold list_videos, iterdir, mbind, M_bind.
  by destruct (fs w !! folder) as [[]|].
Qed.

Lemma discover_trace args w : trace (discover E args w).2 = trace w.
Proof.
  unfold discover, mbind, M_bind.
  pose proof (check_deps_trace w) as H1.
  destruct (check_deps E w) as [[[]|e] w1]; [|exact H1].
  pose proof (mkdir_go_trace [] (args_out args) w1) as H2.
  fold (mkdir_parents (args_out args)) in H2.
  destruct (mkdir_parents (args_out args) w1) as [[[]|e] w2]; simpl in *;
    [|congruence].
  rewrite <- H1, <- H2. apply list_videos_trace.
Qed.


(** ** A malformed tile spec *)







End Driver.

(* ===================================================================== *)
(** * The program on the concrete environment *)
(* ===================================================================== *)

(** The scenario of discovery: [note.txt], the sub-directory, the file
    below it and the directory named like a video are left out. *)
Example demo_discovery :
  list_videos ["in"] Demo.world = (Ok Demo.videos, Demo.world).
Proof. vm_compute. reflexivity. Qed.

(** The scenario of grid mode: 2x2 tiles of a ten-second video. *)
Example demo_grid_2x2 :
  (build_grid_cmd Demo.env ["in"; "a.mp4"] ["thumbs"; "a_grid.jpg"] 640 "2x2"
     Demo.world).1
  = Ok ["ffmpeg"; "-y"; "-v"; "error"; "-i"; "/in/a.mp4";
        "-vf"; "fps=1,scale=320:-2,tile=2x2"; "-frames:v"; "4";
        "/thumbs/a_grid.jpg"].
Proof. vm_compute. reflexivity. Qed.

Example demo_tile_specs :
  parse_tile "3x3" = Some (3, 3) ∧ parse_tile "4X3" = Some (4, 3) ∧
  parse_tile " 1_0 x+2" = Some (10, 2) ∧
  parse_tile "0x3" = None ∧ parse_tile "3x-1" = None ∧
  parse_tile "3.5x2" = None ∧ parse_tile "3x" = None ∧
  parse_tile "3" = None ∧ parse_tile "3x3x3" = None ∧ parse_tile "" = None.
Proof. vm_compute. repeat split. Qed.

(** A whole run in best-frame mode: three thumbnails and one failure. *)
Example demo_run_smart :
  let r := main Demo.env (Demo.args "smart" "3x3") Demo.world in
  r.1 = Ok tt ∧
  printed (trace r.2)
  = ["Найдено файлов: 4";
     "Режим: smart, размер: 640x-2, выход: /thumbs";
     "[✗] broken.mp4: Command failed (1): ffmpeg -y -v error -i /in/broken.mp4 -vf thumbnail=600,scale=640:-2 -frames:v 1 /thumbs/broken.jpg";
     "[✓] b.mov"; "[✓] a.mp4"; "[✓] C.MKV";
     "Готово. Успешно: 3, ошибок: 1. Превью в: /thumbs"] ∧
  pools (trace r.2) = [1].
Proof. vm_compute. repeat split. Qed.

(** A second run in percentage mode: [a.mp4] is skipped, the seek time of
    the others is three seconds, that of the failed probe zero. *)
Example demo_run_middle_again :
  let r := main Demo.env (Demo.args "middle" "3x3") Demo.rerun in
  r.1 = Ok tt ∧
  printed (trace r.2)
  = ["Найдено файлов: 4";
     "Режим: middle, размер: 640x-2, выход: /thumbs";
     "Процент длительности: 0.30";
     "[✗] broken.mp4: Command failed (1): ffmpeg -y -v error -ss 0.000 -i /in/broken.mp4 -frames:v 1 -vf scale=640:-2 /thumbs/broken.jpg";
     "[✓] b.mov"; "[✓] a.mp4"; "[✓] C.MKV";
     "Готово. Успешно: 3, ошибок: 1. Превью в: /thumbs"] ∧
  (["ffmpeg"; "-y"; "-v"; "error"; "-ss"; "3.000"; "-i"; "/in/b.mov";
    "-frames:v"; "1"; "-vf"; "scale=640:-2"; "/thumbs/b.jpg"]
   ∈ spawned (trace r.2)) ∧
  Forall (λ cmd, "/in/a.mp4" ∉ cmd) (spawned (trace r.2)).
Proof.
  cbv zeta. repeat split; compute_done.
Qed.

(** A run in grid mode with a tile spec that has a zero. *)
Example demo_run_invalid_tile :
  let r := main Demo.env (Demo.args "grid" "0x2") Demo.world in
  r.1 = Raise (ValueError "Неверный --tile: 0x2") ∧
  printed (trace r.2)
  = ["Найдено файлов: 4";
     "Режим: grid, размер: 640x-2, выход: /thumbs";
     "Сетка: 0x2"] ∧
  spawned (trace r.2) = [].
Proof. vm_compute. repeat split. Qed.

Lemma demo_discover mode tile :
  discover Demo.env (Demo.args mode tile) Demo.world
  = (Ok Demo.videos, (discover Demo.env (Demo.args mode tile) Demo.world).2).
Proof. vm_compute. reflexivity. Qed.

Lemma demo_order : completion_order Demo.env 4 ≡ₚ seq 0 4.
Proof. symmetry. apply Permutation_rev. Qed.


(** The second run skips [a.mp4]. *)
Lemma process_one_skip_witness :
  ∃ w',
    process_one Demo.env ["in"; "a.mp4"] ["thumbs"] "smart" 640 (-2)
      0x1.3333333333333p-2%float 720 "/Library/Fonts/Arial Bold.ttf" None "3x3"
      Demo.rerun
    = (Ok (true, "/in/a.mp4", "skip (exists)"), w') ∧
    w' = Demo.rerun ∧ spawned (trace w') = spawned (trace Demo.rerun) ∧
    fs w' = fs Demo.rerun.
Proof.
  apply (process_one_skip Demo.env ["in"; "a.mp4"] ["thumbs"] "smart").
  vm_compute. by eexists.
Defined.


(** Discovery in the input directory of the concrete machine. *)
Lemma list_videos_spec_witness :
  ∃ files,
    list_videos ["in"] Demo.world = (Ok files, Demo.world) ∧
    (∀ p, p ∈ files ↔
       p ≠ [] ∧ PyPath.parent p = ["in"] ∧ fs Demo.world !! p = Some Regular ∧
       PyStr.lower (PyPath.suffix p) ∈ VIDEO_EXTS) ∧
    NoDup files ∧
    StronglySorted PyPath.le files ∧
    StronglySorted (λ p q, String.le (PyPath.name p) (PyPath.name q)) files.
Proof. apply (list_videos_spec ["in"] Demo.world). vm_compute. reflexivity. Defined.






(* ===================================================================== *)
(** * Start-up *)
(* ===================================================================== *)

Section Startup.

Variable E : Env.

Lemma check_deps_eq w :
  check_deps E w
  = (if which E "ffmpeg"
     then if which E "ffprobe" then Ok tt else Raise (missing_tool "ffprobe")
     else Raise (missing_tool "ffmpeg"), w).
Proof.
  unfold check_deps, for_each, mbind, M_bind, mret, M_ret, raise, missing_tool.
  by repeat destruct (which E _).
Qed.

(** X1 — The dependency check. [check_deps] returns exactly when both
    tools are found. When one is missing, the whole run exits with the
    message that names it ([ffmpeg] when both are missing), before it has
    created the output directory, printed a line or started a process:
    the world is as it was. *)
Theorem main_exits_without_tools (args : Args) (w : World) :
  (check_deps E w = (Ok tt, w) ↔
   which E "ffmpeg" = true ∧ which E "ffprobe" = true) ∧
  (which E "ffmpeg" = false →
   main E args w = (Raise (missing_tool "ffmpeg"), w)) ∧
  (which E "ffmpeg" = true → which E "ffprobe" = false →
   main E args w = (Raise (missing_tool "ffprobe"), w)).
Proof.
  pose proof (check_deps_eq w) as Hc. split; [|split].
  - rewrite Hc. destruct (which E "ffmpeg"), (which E "ffprobe");
      split; (by intros [? ?]) || by intros [=].
  - intros H. rewrite H in Hc. unfold main. by rewrite (bind_Raise _ _ _ _ _ Hc).
  - intros H1 H2. rewrite H1, H2 in Hc. unfold main.
    by rewrite (bind_Raise _ _ _ _ _ Hc).
Qed.

(** What [mkdir(parents=True, exist_ok=True)] leaves when it succeeds:
    every prefix it walked is a directory, what was there is untouched,
    and what is new is a directory on the way. *)
Lemma mkdir_go_Ok pre rest w w' :
  mkdir_go pre rest w = (Ok tt, w') →
  trace w' = trace w ∧
  (∀ q k, fs w !! q = Some k → fs w' !! q = Some k) ∧
  (∀ q k, fs w' !! q = Some k →
     fs w !! q = Some k ∨
     k = Directory ∧ ∃ r1 r2, r1 ≠ [] ∧ rest = r1 ++ r2 ∧ q = pre ++ r1) ∧
  (rest ≠ [] → fs w' !! (pre ++ rest) = Some Directory).
Proof.
  revert pre w. induction rest as [|c rest IH]; intros pre w.
  - intros [= <-]. split; [done|]. split; [done|]. split; [auto|done].
  - cbn [mkdir_go]. unfold PyPath.joinpath.
    assert (Hlift : ∀ w1,
      trace w1 = trace w →
      (∀ q k, fs w !! q = Some k → fs w1 !! q = Some k) →
      (∀ q k, fs w1 !! q = Some k →
         fs w !! q = Some k ∨ k = Directory ∧ q = pre ++ [c]) →
      fs w1 !! (pre ++ [c]) = Some Directory →
      mkdir_go (pre ++ [c]) rest w1 = (Ok tt, w') →
      trace w' = trace w ∧
      (∀ q k, fs w !! q = Some k → fs w' !! q = Some k) ∧
      (∀ q k, fs w' !! q = Some k →
         fs w !! q = Some k ∨
         k = Directory ∧ ∃ r1 r2, r1 ≠ [] ∧ c :: rest = r1 ++ r2 ∧ q = pre ++ r1) ∧
      (c :: rest ≠ [] → fs w' !! (pre ++ c :: rest) = Some Directory)).
    { intros w1 Ht1 Hk1 Hn1 Hd1 H.
      apply IH in H as (Ht & Hkeep & Hnew & Hdir).
      split; [congruence|]. split; [auto|]. split.
      - intros q k Hq.
        destruct (Hnew q k Hq) as [Hq1|(-> & r1 & r2 & ? & -> & ->)].
        + destruct (Hn1 q k Hq1) as [?|[-> ->]]; [by left|right].
          split; [done|]. by exists [c], rest.
        + right. split; [done|].
          exists (c :: r1), r2. by rewrite <- app_assoc.
      - intros _. destruct rest as [|c' rest'].
        + apply Hkeep. exact Hd1.
        + rewrite <- Hdir by done. by rewrite <- app_assoc. }
    match goal with
    | |- context [match ?x with _ => _ end] => destruct x as [[]|] eqn:Hp
    end; try discriminate.
    + apply Hlift; auto.
    + apply Hlift; cbn [fs trace].
      * done.
      * intros q k Hq. rewrite lookup_insert_ne; [done|]. congruence.
      * intros q k Hq. destruct (decide (pre ++ [c] = q)) as [<-|Hne].
        -- rewrite lookup_insert_eq in Hq. right. by injection Hq as <-.
        -- rewrite lookup_insert_ne in Hq by done. by left.
      * apply lookup_insert_eq.
Qed.

Lemma list_videos_fs folder w : fs (list_videos folder w).2 = fs w.
Proof.
  unfold list_videos, iterdir, mbind, M_bind.
  by destruct (fs w !! folder) as [[]|].
Qed.

Lemma discover_steps args w files w0 :
  discover E args w = (Ok files, w0) →
  which E "ffmpeg" = true ∧ which E "ffprobe" = true ∧
  ∃ w2, mkdir_parents (args_out args) w = (Ok tt, w2) ∧
        list_videos (args_input args) w2 = (Ok files, w0).
Proof.
  unfold discover. intros H.
  pose proof (check_deps_eq w) as Hc.
  destruct (which E "ffmpeg"), (which E "ffprobe");
    try (rewrite (bind_Raise _ _ _ _ _ Hc) in H; discriminate).
  rewrite (bind_Ok _ _ _ _ _ Hc) in H.
  destruct (mkdir_parents (args_out args) w) as [[[]|e] w2] eqn:Hm;
    [|by rewrite (bind_Raise _ _ _ _ _ Hm) in H].
  rewrite (bind_Ok _ _ _ _ _ Hm) in H. split; [done|]. split; [done|].
  by exists w2.
Qed.

(** X2 — The output directory comes first. A run that gets as far as
    discovery has made the output directory, and whatever ancestors of it
    were missing, before it looked for videos: all that was on the disk
    is still there unchanged, and every new entry is a directory that is
    the output directory or one of its ancestors. When no video is found
    the run ends with the disk in that state. *)
Theorem discover_makes_out_dir (args : Args) (w : World) (files : list Path)
    (w0 : World) :
  discover E args w = (Ok files, w0) →
  (args_out args ≠ [] → fs w0 !! args_out args = Some Directory) ∧
  (∀ q k, fs w !! q = Some k → fs w0 !! q = Some k) ∧
  (∀ q k, fs w0 !! q = Some k →
     fs w !! q = Some k ∨
     k = Directory ∧ ancestor_or_self q (args_out args)) ∧
  (files = [] → ∃ w', main E args w = (Ok tt, w') ∧ fs w' = fs w0).
Proof.
  intros Hd.
  destruct (discover_steps args w files w0 Hd) as (_ & _ & w2 & Hm & Hl).
  pose proof (list_videos_fs (args_input args) w2) as Hfs.
  rewrite Hl in Hfs. cbn in Hfs.
  apply mkdir_go_Ok in Hm as (_ & Hkeep & Hnew & Hdir).
  rewrite Hfs. split; [exact Hdir|]. split; [exact Hkeep|]. split.
  - intros q k Hq. destruct (Hnew q k Hq) as [?|(-> & r1 & r2 & ? & -> & ->)];
      [by left|right]. split; [done|]. split; [done|]. by exists r2.
  - intros ->. rewrite (main_discovered E args w [] w0 Hd). by eexists.
Qed.

(** X3 — An input folder that is not there. With both tools found and
    the output directory made, a path for the input that is not a
    directory makes the run end with [OSError]: nothing is printed, no
    process is started, and the output directory stays made. *)
Theorem main_without_input_dir (args : Args) (w w2 : World) :
  which E "ffmpeg" = true → which E "ffprobe" = true →
  mkdir_parents (args_out args) w = (Ok tt, w2) →
  fs w2 !! args_input args ≠ Some Directory →
  main E args w = (Raise (OSError "not a directory"), w2) ∧
  trace w2 = trace w.
Proof.
  intros H1 H2 Hm Hin. pose proof (check_deps_eq w) as Hc.
  rewrite H1, H2 in Hc. split.
  - unfold main. rewrite (bind_Ok _ _ _ _ _ Hc). cbv zeta.
    rewrite (bind_Ok _ _ _ _ _ Hm).
    assert (Hl : list_videos (args_input args) w2
                 = (Raise (OSError "not a directory"), w2)).
    { unfold list_videos, iterdir, mbind, M_bind.
      by destruct (fs w2 !! args_input args) as [[]|]. }
    by rewrite (bind_Raise _ _ _ _ _ Hl).
  - by apply mkdir_go_Ok in Hm as (? & _).
Qed.

End Startup.

(* ===================================================================== *)
(** * What one job does *)
(* ===================================================================== *)

Section Jobs.

Variable E : Env.

Lemma after_spawn_trace cmd w :
  trace (after_spawn E cmd w) = trace w ++ [Spawn cmd].
Proof. unfold after_spawn. by destruct (os_exec E cmd (fs w)) as [[]]. Qed.

Lemma run_then_eq cmd (name : string) w :
  ∃ ok msg,
    ('(ok, msg) ← run E cmd; mret (ok, name, msg)) w
    = (Ok (ok, name, msg), after_spawn E cmd w).
Proof.
  pose proof (run_eq E cmd w) as Hr.
  destruct (match os_exec E cmd (fs w) with
            | (LaunchError text, _) => _ | (Exited rc _, _) => _ end)
    as [ok msg] in Hr.
  exists ok, msg. by rewrite (bind_Ok _ _ _ _ _ Hr).
Qed.

Lemma writes_to_smart inp out width height :
  writes_to inp out (build_smart_cmd inp out width height).
Proof.
  eexists ["-i"; _; "-vf"; _; "-frames:v"; "1"]. split; [reflexivity|].
  rewrite !elem_of_cons. auto.
Qed.

Lemma build_middle_cmd_writes inp out width height percent w :
  ∃ cmd,
    build_middle_cmd E inp out width height percent w
    = (Ok cmd, after_spawn E (ffprobe_cmd inp) w) ∧
    writes_to inp out cmd.
Proof.
  unfold build_middle_cmd.
  rewrite (bind_Ok _ _ _ _ _ (ffprobe_duration_eq E inp w)).
  eexists. split; [reflexivity|].
  eexists ["-ss"; _; "-i"; _; "-frames:v"; "1"; "-vf"; _]. split; [reflexivity|].
  rewrite !elem_of_cons. auto.
Qed.

Lemma build_styled_cmd_writes inp out width height canvas_h font logo title w :
  ∃ cmd,
    build_styled_cmd E inp out width height canvas_h font logo title w
    = (Ok (cmd, mkstemp E (fs w)),
       mkWorld (<[mkstemp E (fs w) := Regular]> (fs w)) (trace w)) ∧
    writes_to inp out cmd.
Proof.
  unfold build_styled_cmd, named_temporary_file, mbind, M_bind, mret, M_ret.
  cbv zeta.
  destruct logo as [l|]; [destruct (String.eqb l "")|];
    (eexists; split; [reflexivity|]).
  - eexists ["-i"; _; "-vf"; _; "-frames:v"; "1"]. split; [reflexivity|].
    rewrite !elem_of_cons. auto.
  - eexists ["-i"; _; "-i"; _; "-filter_complex"; _; "-frames:v"; "1"].
    split; [reflexivity|]. rewrite !elem_of_cons. auto.
  - eexists ["-i"; _; "-vf"; _; "-frames:v"; "1"]. split; [reflexivity|].
    rewrite !elem_of_cons. auto.
Qed.

Lemma build_grid_cmd_writes inp out width tile w cmd w' :
  build_grid_cmd E inp out width tile w = (Ok cmd, w') →
  w' = after_spawn E (ffprobe_cmd inp) w ∧ writes_to inp out cmd.
Proof.
  destruct (parse_tile tile) as [[cols rows]|] eqn:Hv.
  - rewrite (build_grid_cmd_eq E _ _ _ _ _ _ _ Hv).
    destruct (grid_rate _ _) as [fps|e]; [|discriminate].
    intros [= <- <-]. split; [done|].
    eexists ["-i"; _; "-vf"; _; "-frames:v"; _]. split; [reflexivity|].
    rewrite !elem_of_cons. auto.
  - by rewrite (build_grid_cmd_invalid E _ _ _ _ _ Hv).
Qed.

Lemma build_grid_cmd_raises inp out width tile w e w' :
  build_grid_cmd E inp out width tile w = (Raise e, w') →
  w' = w ∨ w' = after_spawn E (ffprobe_cmd inp) w.
Proof.
  destruct (parse_tile tile) as [[cols rows]|] eqn:Hv.
  - rewrite (build_grid_cmd_eq E _ _ _ _ _ _ _ Hv). intros [= _ <-]. by right.
  - rewrite (build_grid_cmd_invalid E _ _ _ _ _ Hv). intros [= _ <-]. by left.
Qed.

(** The trace of one job, mode by mode. *)
Lemma process_one_spawns path outdir mode width height percent canvas_h font
    logo tile w :
  ∃ cmds,
    trace (process_one E path outdir mode width height percent canvas_h font
             logo tile w).2
    = trace w ++ map Spawn cmds ∧
    job_processes path (output_path outdir path mode) cmds.
Proof.
  set (out := output_path outdir path mode).
  assert (Hnone : ∀ w0 : World, trace w0 = trace w →
            ∃ cmds, trace w0 = trace w ++ map Spawn cmds ∧
                    job_processes path out cmds).
  { intros w0 ->. exists []. split; [by rewrite app_nil_r|by left]. }
  destruct (fs w !! out) as [k|] eqn:Hout.
  { assert (Hsome : is_Some (fs w !! out)) by (rewrite Hout; eauto).
    rewrite process_one_present by exact Hsome. by apply Hnone. }
  destruct (String.eqb mode "smart") eqn:H1.
  { apply String.eqb_eq in H1. subst mode. unfold out in *. clear out.
    rewrite process_one_smart by done.
    destruct (run_then_eq (build_smart_cmd path (output_path outdir path "smart") width height)
                (PyPath.str path) w) as (ok & msg & ->).
    eexists [_].
    split; [apply after_spawn_trace|]. right; right. eexists.
    split; [apply writes_to_smart|by left]. }
  destruct (String.eqb mode "middle") eqn:H2.
  { apply String.eqb_eq in H2. subst mode. unfold out in *. clear out.
    rewrite process_one_middle by done.
    destruct (build_middle_cmd_writes path (output_path outdir path "middle") width
                height percent w)
      as (cmd & Hb & Hw).
    rewrite (bind_Ok _ _ _ _ _ Hb).
    destruct (run_then_eq cmd (PyPath.str path)
                (after_spawn E (ffprobe_cmd path) w)) as (ok & msg & ->).
    exists [ffprobe_cmd path; cmd]. split.
    - cbn [snd]. rewrite !after_spawn_trace. by rewrite <- app_assoc.
    - right; right. exists cmd. split; [done|by right]. }
  destruct (String.eqb mode "styled") eqn:H3.
  { apply String.eqb_eq in H3. subst mode. unfold out in *. clear out.
    rewrite process_one_styled by done.
    destruct (build_styled_cmd_writes path (output_path outdir path "styled") width
                height canvas_h font logo
                (title_from_filename path) w) as (cmd & Hb & Hw).
    rewrite (bind_Ok _ _ _ _ _ Hb). cbv beta iota.
    destruct (run_then_eq cmd (PyPath.str path)
                (mkWorld (<[mkstemp E (fs w) := Regular]> (fs w)) (trace w)))
      as (ok & msg & Hr).
    destruct (try_finally_remove _ (mkstemp E (fs w)) _ _ _ Hr)
      as (w' & -> & Ht & _).
    exists [cmd]. split.
    - cbn [snd]. rewrite Ht. by rewrite after_spawn_trace.
    - right; right. exists cmd. split; [done|by left]. }
  destruct (String.eqb mode "grid") eqn:H4.
  { apply String.eqb_eq in H4. subst mode. unfold out in *. clear out.
    rewrite process_one_grid by done.
    destruct (build_grid_cmd E path (output_path outdir path "grid") width tile
                w) as [[cmd|e] w1] eqn:Hb.
    - apply build_grid_cmd_writes in Hb as Hb'. destruct Hb' as [-> Hw].
      rewrite (bind_Ok _ _ _ _ _ Hb).
      destruct (run_then_eq cmd (PyPath.str path)
                  (after_spawn E (ffprobe_cmd path) w)) as (ok & msg & ->).
      exists [ffprobe_cmd path; cmd]. split.
      + cbn [snd]. rewrite !after_spawn_trace. by rewrite <- app_assoc.
      + right; right. exists cmd. split; [done|by right].
    - rewrite (bind_Raise _ _ _ _ _ Hb).
      apply build_grid_cmd_raises in Hb as [->| ->].
      + by apply Hnone.
      + exists [ffprobe_cmd path]. split; [apply after_spawn_trace|].
        right. by left. }
  rewrite process_one_unknown by done. by apply Hnone.
Qed.

(** X4 — The processes of one job. Whatever the mode and whatever the
    outcome, a job starts at most two processes: possibly the probe of
    its own video, then possibly one [ffmpeg], whose command line starts
    with [ffmpeg -y -v error], names the video among its arguments and
    ends with the output path of the job. It starts nothing else. *)
Theorem process_one_processes (path outdir : Path) (mode : string)
    (width height : Z) (percent : float) (canvas_h : Z) (font : string)
    (logo : option string) (tile : string) (w : World) :
  ∃ cmds,
    trace (process_one E path outdir mode width height percent canvas_h font
             logo tile w).2
    = trace w ++ map Spawn cmds ∧
    job_processes path (output_path outdir path mode) cmds.
Proof. apply process_one_spawns. Qed.


(** X6 — A mode that is not known. For a mode other than the four, a
    video whose output ([stem.jpg]) is present is still reported as
    skipped with success; otherwise the job fails with the diagnostic
    "unknown mode: " and the mode. Either way nothing is run and nothing
    changes. *)
Theorem process_one_unknown_mode (path outdir : Path) (mode : string)
    (width height : Z) (percent : float) (canvas_h : Z) (font : string)
    (logo : option string) (tile : string) (w : World) :
  mode ∉ ["smart"; "middle"; "styled"; "grid"] →
  process_one E path outdir mode width height percent canvas_h font logo tile w
  = (Ok (if decide (is_Some (fs w !! PyPath.joinpath outdir
                                       (PyPath.stem path +:+ ".jpg")))
         then (true, PyPath.str path, "skip (exists)")
         else (false, PyPath.str path, "unknown mode: " +:+ mode)), w).
Proof.
  intros Hm. rewrite !not_elem_of_cons in Hm.
  destruct Hm as (H1 & H2 & H3 & H4 & _).
  apply String.eqb_neq in H1, H2, H3, H4.
  assert (Hout : output_path outdir path mode
                 = PyPath.joinpath outdir (PyPath.stem path +:+ ".jpg")).
  { unfold output_path. by rewrite H4. }
  rewrite <- Hout. destruct (decide _) as [Hp|Hp].
  - by apply process_one_present.
  - apply process_one_unknown; try done. by apply eq_None_not_Some.
Qed.

End Jobs.

(* ===================================================================== *)
(** * What a whole run does *)
(* ===================================================================== *)

Lemma spawned_Spawn cmds : spawned (map Spawn cmds) = cmds.
Proof. induction cmds as [|c cmds IH]; [done|]. cbn. by f_equal. Qed.

Lemma failures_Permutation rs1 rs2 : rs1 ≡ₚ rs2 → failures rs1 = failures rs2.
Proof. intros H. unfold failures. by rewrite H. Qed.

(** The loop over the futures prints and does nothing else. *)
Lemma collect_prints futs done errors w :
  ∃ lines,
    trace (collect futs done errors w).2 = trace w ++ (Stdout <$> lines) ∧
    fs (collect futs done errors w).2 = fs w.
Proof.
  revert done errors w.
  induction futs as [|[[[ok name] msg]|e] futs IH]; intros done errors w.
  - exists []. cbn. by rewrite app_nil_r.
  - cbn [collect result]. rewrite ret_bind. cbv beta iota. rewrite print_bind.
    destruct (IH (done + 1) (if ok then errors else errors + 1)
                (mkWorld (fs w) (trace w ++ [Stdout (result_line ok name msg)])))
      as (lines & Ht & Hf).
    exists (result_line ok name msg :: lines). rewrite Ht, Hf. cbn.
    by rewrite <- app_assoc.
  - exists []. cbn. by rewrite app_nil_r.
Qed.

Section Runs.

Variable E : Env.

Lemma main_discover_raises args w e w0 :
  discover E args w = (Raise e, w0) → main E args w = (Raise e, w0).
Proof.
  unfold discover, main. intros H.
  destruct (check_deps E w) as [[[]|e1] w1] eqn:H1.
  - rewrite (bind_Ok _ _ _ _ _ H1) in H. rewrite (bind_Ok _ _ _ _ _ H1).
    cbv zeta.
    destruct (mkdir_parents (args_out args) w1) as [[[]|e2] w2] eqn:H2.
    + rewrite (bind_Ok _ _ _ _ _ H2) in H. rewrite (bind_Ok _ _ _ _ _ H2).
      by rewrite (bind_Raise _ _ _ _ _ H).
    + rewrite (bind_Raise _ _ _ _ _ H2) in H.
      rewrite (bind_Raise _ _ _ _ _ H2). by injection H as -> ->.
  - rewrite (bind_Raise _ _ _ _ _ H1) in H.
    rewrite (bind_Raise _ _ _ _ _ H1). by injection H as -> ->.
Qed.

(** What [list_videos] returns lies directly in the folder. *)
Lemma list_videos_children folder w files w' p :
  list_videos folder w = (Ok files, w') →
  p ∈ files → p ≠ [] ∧ PyPath.parent p = folder.
Proof.
  unfold list_videos, iterdir, mbind, M_bind.
  destruct (fs w !! folder) as [[]|]; try discriminate.
  intros [= <- _]. rewrite merge_sort_Permutation, !list_elem_of_filter.
  by intros [_ [? _]].
Qed.

(** The jobs of a run start only their own processes. *)
Lemma submit_jobs_processes args files w :
  ∃ futs w' cmds,
    submit_all (map (job E args) files) w = (Ok futs, w') ∧
    trace w' = trace w ++ map Spawn cmds ∧
    Forall (λ cmd, ∃ p, p ∈ files ∧
              (cmd = ffprobe_cmd p ∨
               writes_to p (output_path (args_out args) p (args_mode args)) cmd))
      cmds.
Proof.
  revert w. induction files as [|p files IH]; intros w.
  - exists [], w, []. cbn. by rewrite app_nil_r.
  - destruct (process_one_spawns E p (args_out args) (args_mode args)
                (args_width args) (args_height args) (args_percent args)
                (args_canvas_height args) (args_font args) (logo_of args)
                (args_tile args) w) as (c1 & Ht1 & Hj).
    fold (job E args p) in Ht1.
    destruct (job E args p w) as [r w1] eqn:Hjob. cbn in Ht1.
    destruct (IH w1) as (futs & w2 & c2 & Hs & Ht2 & Hall).
    exists (r :: futs), w2, (c1 ++ c2). split; [|split].
    + cbn [map submit_all]. unfold mbind at 1, M_bind at 1, capture.
      rewrite Hjob. by rewrite (bind_Ok _ _ _ _ _ Hs).
    + by rewrite Ht2, Ht1, map_app, app_assoc.
    + apply Forall_app. split.
      * assert (Hc1 : Forall (λ cmd, cmd = ffprobe_cmd p ∨
                  writes_to p (output_path (args_out args) p (args_mode args))
                    cmd) c1).
        { destruct Hj as [->|[->|(ff & Hw & [->| ->])]];
            repeat (apply Forall_cons; split); try apply Forall_nil; auto. }
        eapply Forall_impl; [exact Hc1|]. intros cmd Hcmd. exists p.
        split; [by left|done].
      * eapply Forall_impl; [exact Hall|]. intros cmd (q & Hq & Hcmd).
        exists q. split; [by right|done].
Qed.

Lemma fan_out_processes args files w :
  ∃ cmds lines,
    trace (fan_out E args files w).2
    = trace w ++ map Spawn cmds ++ (Stdout <$> lines) ∧
    Forall (λ cmd, ∃ p, p ∈ files ∧
              (cmd = ffprobe_cmd p ∨
               writes_to p (output_path (args_out args) p (args_mode args)) cmd))
      cmds.
Proof.
  destruct (submit_jobs_processes args files w)
    as (futs & w1 & cmds & Hs & Ht & Hall).
  unfold fan_out. rewrite (bind_Ok _ _ _ _ _ Hs).
  set (collected := omap _ _).
  destruct (collect_prints collected 0 0 w1) as (lines & Hc & _).
  destruct (collect collected 0 0 w1) as [[[done errors]|e] w2] eqn:Hcol;
    cbn in Hc.
  - rewrite (bind_Ok _ _ _ _ _ Hcol). cbv beta iota.
    eexists cmds, (lines ++ [_]). split; [|exact Hall].
    cbn. rewrite Hc, Ht, fmap_app. by rewrite <- !app_assoc.
  - rewrite (bind_Raise _ _ _ _ _ Hcol).
    exists cmds, lines. split; [|exact Hall].
    cbn. rewrite Hc, Ht. by rewrite <- !app_assoc.
Qed.

Lemma output_path_child outdir p mode :
  output_path outdir p mode ≠ [] ∧
  PyPath.parent (output_path outdir p mode) = outdir.
Proof.
  unfold output_path, PyPath.joinpath, PyPath.parent. split.
  - by destruct outdir.
  - apply removelast_last.
Qed.

(** X7 — A run stays in its two folders. Whatever the arguments and
    however the run ends, every process it starts is either [ffprobe] on
    an entry of the input folder or an [ffmpeg] (with [-y -v error]) that
    reads an entry of the input folder and writes, as its last argument,
    an entry of the output folder. *)
Theorem main_processes (args : Args) (w : World) :
  ∃ cmds,
    spawned (trace (main E args w).2) = spawned (trace w) ++ cmds ∧
    Forall (run_process (args_input args) (args_out args)) cmds.
Proof.
  pose proof (discover_trace E args w) as Ht0.
  destruct (discover E args w) as [[files|e] w0] eqn:Hd; cbn in Ht0.
  2:{ rewrite (main_discover_raises args w e w0 Hd). exists [].
      cbn. by rewrite Ht0, app_nil_r. }
  rewrite (main_discovered E args w files w0 Hd).
  destruct files as [|p0 files'].
  { exists []. cbn. rewrite Ht0, spawned_app. cbn.
    by rewrite !app_nil_r. }
  remember (p0 :: files') as files eqn:Hfiles.
  destruct (discover_steps E args w files w0 Hd) as (_ & _ & w2 & _ & Hl).
  assert (Hin : ∀ p, p ∈ files → p ≠ [] ∧ PyPath.parent p = args_input args).
  { intros p Hp. exact (list_videos_children _ _ _ _ p Hl Hp). }
  destruct (fan_out_processes args files (announced args files w0))
    as (cmds & lines & Ht & Hall).
  exists cmds. split.
  - rewrite Ht. unfold announced. cbn [trace].
    rewrite !spawned_app, !spawned_Stdout, spawned_Spawn, Ht0.
    change (spawned [Pool _]) with (@nil (list string)).
    by rewrite !app_nil_r.
  - eapply Forall_impl; [exact Hall|]. intros cmd (p & Hp & Hcmd).
    destruct (Hin p Hp) as [Hne Hpar]. exists p. split; [done|]. split; [done|].
    destruct Hcmd as [->|Hw]; [by left|right].
    exists (output_path (args_out args) p (args_mode args)).
    destruct (output_path_child (args_out args) p (args_mode args)). done.
Qed.

End Runs.

(* ===================================================================== *)
(** * Running again, and running in another order *)
(* ===================================================================== *)

Section Reruns.

Variable E : Env.

Lemma submit_jobs_present args files w :
  Forall (λ p, is_Some (fs w !! output_path (args_out args) p (args_mode args)))
    files →
  submit_all (map (job E args) files) w = (Ok (Ok <$> (skipped <$> files)), w).
Proof.
  induction 1 as [|p files Hp _ IH]; [done|].
  cbn [map submit_all]. unfold mbind at 1, M_bind at 1, capture, job at 1.
  rewrite (process_one_present E _ _ _ _ _ _ _ _ _ _ _ Hp).
  by rewrite (bind_Ok _ _ _ _ _ IH).
Qed.

Lemma failures_skipped ps : failures (skipped <$> ps) = 0.
Proof.
  unfold failures. induction ps as [|p ps IH]; [done|].
  rewrite fmap_cons, filter_cons_False by done. exact IH.
Qed.

(** The fan-out from the values the futures hold. *)
Lemma fan_out_values args files w rs w1 :
  submit_all (map (job E args) files) w = (Ok (Ok <$> rs), w1) →
  completion_order E (length rs) ≡ₚ seq 0 (length rs) →
  ∃ results,
    results ≡ₚ rs ∧
    fan_out E args files w
    = (Ok tt,
       mkWorld (fs w1)
         (trace w1 ++ (Stdout <$> (line_of <$> results))
            ++ [Stdout (summary_line (Z.of_nat (length files)) (failures rs)
                          (args_out args))])).
Proof.
  intros Hs Hord.
  set (collected := omap (λ i, (Ok <$> rs) !! i)
                      (completion_order E (length (Ok <$> rs)))).
  assert (Hperm : collected ≡ₚ Ok <$> rs).
  { apply completed_Permutation. by rewrite length_fmap. }
  assert (Hok : Forall is_Ok collected).
  { rewrite Hperm. apply Forall_fmap, Forall_true. done. }
  assert (Hv : values collected ≡ₚ rs).
  { unfold values. rewrite Hperm. fold (values (Ok <$> rs)).
    by rewrite values_Ok. }
  exists (values collected). split; [exact Hv|].
  unfold fan_out. rewrite (bind_Ok _ _ _ _ _ Hs). fold collected.
  rewrite (bind_Ok _ _ _ _ _ (collect_values _ _ _ _ Hok)).
  cbv beta iota. unfold print, emit. cbn [fs trace].
  rewrite Z.add_0_l, (failures_Permutation _ _ Hv). by rewrite <- app_assoc.
Qed.

(** X8 — Running again is a no-op. When the output of every discovered
    video is present, the run, in whatever mode (also grid mode with a
    tile spec that does not parse), starts no process and leaves the disk
    as discovery left it; it prints its announcement, one line [✓] with
    the name for each video and no diagnostic, and a summary with no
    error. *)
Theorem main_again_is_noop (args : Args) (w : World) (files : list Path)
    (w0 : World) :
  discover E args w = (Ok files, w0) →
  files ≠ [] →
  completion_order E (length files) ≡ₚ seq 0 (length files) →
  Forall (λ p, is_Some (fs w0 !! output_path (args_out args) p (args_mode args)))
    files →
  ∃ ps w',
    main E args w = (Ok tt, w') ∧
    ps ≡ₚ files ∧
    fs w' = fs w0 ∧
    spawned (trace w') = spawned (trace w) ∧
    printed (trace w')
    = printed (trace w) ++ announce args files
        ++ ((λ p, "[✓] " +:+ PyPath.name (PyPath.of_str (PyPath.str p))) <$> ps)
        ++ [summary_line (Z.of_nat (length files)) 0 (args_out args)].
Proof.
  intros Hd Hne Hord Hall.
  assert (Ht0 : trace w0 = trace w).
  { pose proof (discover_trace E args w) as H. by rewrite Hd in H. }
  pose proof (submit_jobs_present args files (announced args files w0) Hall)
    as Hs.
  rewrite <- list_fmap_compose in Hs.
  destruct (fan_out_values args files _ (skipped <$> files) _
              ltac:(by rewrite <- list_fmap_compose))
    as (results & Hperm & Hf).
  { by rewrite length_fmap. }
  assert (Hps : ∃ ps, ps ≡ₚ files ∧ results = skipped <$> ps).
  { clear -Hperm. revert Hperm. generalize files. clear files.
    induction results as [|r results IH]; intros files Hperm.
    - apply Permutation_nil_l in Hperm. symmetry in Hperm.
      apply fmap_nil_inv in Hperm as ->.
      by exists [].
    - assert (Hr : r ∈ skipped <$> files) by (rewrite <- Hperm; left).
      apply list_elem_of_fmap in Hr as (p & -> & Hp).
      apply list_elem_of_split in Hp as (f1 & f2 & ->).
      rewrite fmap_app, fmap_cons in Hperm.
      rewrite <- Permutation_middle in Hperm.
      apply Permutation_cons_inv in Hperm.
      rewrite <- fmap_app in Hperm.
      destruct (IH _ Hperm) as (ps & Hps & ->).
      exists (p :: ps). split; [|done].
      by rewrite Hps, Permutation_middle. }
  destruct Hps as (ps & Hps & ->).
  assert (Hm : main E args w = fan_out E args files (announced args files w0)).
  { rewrite (main_discovered E args w files w0 Hd). by destruct files. }
  exists ps. eexists. split; [|split; [exact Hps|split; [|split]]].
  - rewrite Hm. exact Hf.
  - reflexivity.
  - unfold announced. cbn [trace].
    rewrite !spawned_app, !spawned_Stdout, Ht0.
    change (spawned [Pool _]) with (@nil (list string)).
    change (spawned [Stdout _]) with (@nil (list string)).
    by rewrite !app_nil_r.
  - unfold announced. cbn [trace].
    rewrite !printed_app, !printed_Stdout, Ht0, failures_skipped.
    change (printed [Pool _]) with (@nil string).
    change (printed [Stdout ?l]) with [l].
    rewrite app_nil_r, <- list_fmap_compose. by rewrite <- !app_assoc.
Qed.

End Reruns.

Lemma job_with_order E order args path :
  job (with_order E order) args path = job E args path.
Proof. reflexivity. Qed.

Lemma discover_with_order E order args :
  discover (with_order E order) args = discover E args.
Proof. reflexivity. Qed.


(* ===================================================================== *)
(** * Strings, tile specs, titles and paths *)
(* ===================================================================== *)

Lemma chars_rev_app s acc : chars (String.rev_app s acc) = rev (chars s) ++ chars acc.
Proof.
  revert acc. induction s as [|c s IH]; intros acc; [done|].
  cbn. rewrite IH. cbn. by rewrite <- app_assoc.
Qed.

Lemma chars_rev s : chars (String.rev s) = rev (chars s).
Proof. unfold String.rev. rewrite chars_rev_app. apply app_nil_r. Qed.

Lemma chars_inj s t : chars s = chars t → s = t.
Proof.
  intros H. rewrite <- (string_of_list_ascii_of_string s),
    <- (string_of_list_ascii_of_string t). unfold chars in H. by rewrite H.
Qed.

Lemma rev_involutive s : String.rev (String.rev s) = s.
Proof. apply chars_inj. by rewrite !chars_rev, rev_involutive. Qed.

Lemma chars_app s t : chars (s +:+ t) = chars s ++ chars t.
Proof.
  induction s as [|c s IH]; [done|].
  change (c :: chars (s +:+ t) = c :: chars s ++ chars t). by rewrite IH.
Qed.

Lemma append_nil_r s : s +:+ "" = s.
Proof. apply chars_inj. by rewrite chars_app, app_nil_r. Qed.

Lemma append_inv_tail s1 s2 t : s1 +:+ t = s2 +:+ t → s1 = s2.
Proof.
  intros H. apply chars_inj. apply (f_equal chars) in H.
  rewrite !chars_app in H. by apply app_inv_tail in H.
Qed.











(** ** Tile specs *)



Lemma split_go_end sep cur s :
  sep ∉ chars s →
  PyStr.split_go sep cur s = [String.rev (String.rev_app s cur)].
Proof.
  revert cur. induction s as [|c s IH]; intros cur H; [done|].
  cbn in *. apply not_elem_of_cons in H as [Hc Hs].
  rewrite (proj2 (Ascii.eqb_neq c sep)) by done. by apply IH.
Qed.

Lemma split_go_sep sep cur s1 s2 :
  sep ∉ chars s1 →
  PyStr.split_go sep cur (s1 +:+ String sep s2)
  = String.rev (String.rev_app s1 cur) :: PyStr.split_go sep "" s2.
Proof.
  revert cur. induction s1 as [|c s1 IH]; intros cur H.
  - change ("" +:+ String sep s2) with (String sep s2).
    cbn. by rewrite Ascii.eqb_refl.
  - change (String c s1 +:+ String sep s2) with (String c (s1 +:+ String sep s2)).
    cbn in *. apply not_elem_of_cons in H as [Hc Hs].
    rewrite (proj2 (Ascii.eqb_neq c sep)) by done. by apply IH.
Qed.




(** ** Titles *)

Lemma chars_replace a b s :
  chars (PyStr.replace a b s)
  = (λ c, if Ascii.eqb c a then b else c) <$> chars s.
Proof. unfold chars. induction s as [|c s IH]; [done|]. cbn. by rewrite IH. Qed.

(** X12 — The title of styled mode. It is as long as the stem of the
    video, holds no underscore, has a space wherever the stem has an
    underscore and the character of the stem everywhere else; a stem
    without underscores is its own title. *)
Theorem title_from_filename_spec (path : Path) :
  String.length (title_from_filename path) = String.length (PyPath.stem path) ∧
  ("_"%char ∉ chars (title_from_filename path)) ∧
  (∀ i c, String.get i (PyPath.stem path) = Some c →
     String.get i (title_from_filename path)
     = Some (if Ascii.eqb c "_" then " "%char else c)) ∧
  ("_"%char ∉ chars (PyPath.stem path) →
   title_from_filename path = PyPath.stem path).
Proof.
  unfold title_from_filename. generalize (PyPath.stem path). intros s.
  split; [|split; [|split]].
  - induction s as [|c s IH]; [done|]. cbn. by rewrite IH.
  - rewrite chars_replace. intros Hin.
    apply list_elem_of_fmap in Hin as (c & Hc & _).
    destruct (Ascii.eqb_spec c "_"); [discriminate|done].
  - induction s as [|c s IH]; intros [|i] c'; cbn; try done.
    + by intros [= ->].
    + apply IH.
  - intros H. induction s as [|c s IH]; [done|].
    cbn in *. apply not_elem_of_cons in H as [Hc Hs].
    rewrite (proj2 (Ascii.eqb_neq c "_")) by done. by rewrite IH.
Qed.

(** ** Output paths *)

Lemma append_assoc s t u : (s +:+ t) +:+ u = s +:+ t +:+ u.
Proof. apply chars_inj. by rewrite !chars_app, app_assoc. Qed.

Lemma append_grid s : s +:+ "_grid.jpg" = (s +:+ "_grid") +:+ ".jpg".
Proof. by rewrite append_assoc. Qed.

(** X13 — Which videos share a thumbnail. In one mode two videos have the
    same output path exactly when they have the same stem, whatever their
    extensions and folders: of [a.mp4] and [a.mov] only one gets a
    thumbnail, the other finds it in place. The grid sheet of a video is
    the thumbnail of another one, in another mode, exactly when the stem
    of the other is that of the first followed by [_grid]. *)
Theorem output_path_collision (outdir p q : Path) (mode : string) :
  (output_path outdir p mode = output_path outdir q mode
   ↔ PyPath.stem p = PyPath.stem q) ∧
  (mode ≠ "grid" →
   (output_path outdir p "grid" = output_path outdir q mode
    ↔ PyPath.stem q = PyPath.stem p +:+ "_grid")).
Proof.
  unfold output_path, PyPath.joinpath. split.
  - split.
    + intros H. apply app_inv_head in H. injection H as H.
      by apply append_inv_tail in H.
    + by intros ->.
  - intros Hm. apply String.eqb_neq in Hm. rewrite Hm.
    change (String.eqb "grid" "grid") with true. cbv iota. split.
    + intros H. apply app_inv_head in H. injection H as H.
      rewrite (append_grid (PyPath.stem p)) in H.
      by apply append_inv_tail in H.
    + intros ->. by rewrite append_grid.
Qed.

(** ** Paths and their strings *)

Lemma str_cons c p :
  PyPath.str (c :: p)
  = String "/" (c +:+ (if p is [] then "" else PyPath.str p)).
Proof.
  destruct p as [|c' p]; [|reflexivity].
  unfold PyPath.str. cbn [map String.concat]. by rewrite append_nil_r.
Qed.

Lemma split_str c p :
  component c → Forall component p →
  PyStr.split_go "/" "" (c +:+ (if p is [] then "" else PyPath.str p)) = c :: p.
Proof.
  intros Hc Hp. revert c Hc. induction Hp as [|c' p Hc' _ IH]; intros c [_ Hc].
  - rewrite append_nil_r, split_go_end by done. f_equal. apply rev_involutive.
  - rewrite str_cons, split_go_sep by done. rewrite (IH c' Hc'). f_equal.
    apply rev_involutive.
Qed.

Lemma of_str_str p : Forall component p → PyPath.of_str (PyPath.str p) = p.
Proof.
  intros Hp. destruct Hp as [|c p Hc Hp]; [reflexivity|].
  unfold PyPath.of_str, PyStr.split. rewrite str_cons.
  cbn [PyStr.split_go]. change (Ascii.eqb "/" "/") with true. cbv iota.
  rewrite split_str by done. rewrite filter_cons_False by (intros H; by apply H).
  assert (Hall : Forall component (c :: p)) by by constructor.
  revert Hall. generalize (c :: p). clear.
  induction 1 as [|c p [Hc _] _ IH]; [done|].
  rewrite filter_cons_True by done. by rewrite IH.
Qed.

(** X16 — The line of a result names the file. For the path of a video
    turned into text by a job, [Path(name)] is that path again, so the
    line printed holds the tick or the cross and the bare file name, then
    the diagnostic after a colon unless it is empty or says that the
    video was skipped. *)
Theorem result_line_names_video (p : Path) (ok : bool) (msg : string) :
  Forall component p →
  PyPath.of_str (PyPath.str p) = p ∧
  result_line ok (PyPath.str p) msg
  = "[" +:+ (if ok then "✓" else "✗") +:+ "] " +:+ PyPath.name p
      +:+ (if decide (msg = "" ∨ msg = "skip (exists)") then ""
           else ": " +:+ msg).
Proof.
  intros Hp. split; [by apply of_str_str|].
  unfold result_line. rewrite of_str_str by done.
  destruct (String.eqb_spec msg "") as [->|H1]; cbn [negb andb].
  - rewrite decide_True by auto. by rewrite append_nil_r.
  - destruct (String.eqb_spec msg "skip (exists)") as [->|H2]; cbn [negb].
    + rewrite decide_True by auto. by rewrite append_nil_r.
    + rewrite decide_False by (by intros [|]). reflexivity.
Qed.

Section Verdicts.

Variable E : Env.





Lemma mkdir_go_blocked rest pre w k :
  k ≠ Directory →
  (∃ r1 r2, r1 ≠ [] ∧ rest = r1 ++ r2 ∧ fs w !! (pre ++ r1) = Some k) →
  ∃ w',
    mkdir_go pre rest w = (Raise (OSError "file exists"), w') ∧
    trace w' = trace w ∧
    (∀ q k', fs w !! q = Some k' → fs w' !! q = Some k').
Proof.
  intros Hk. revert pre w.
  induction rest as [|c rest IH]; intros pre w (r1 & r2 & Hne & Hr & Hq).
  { by destruct r1. }
  destruct r1 as [|c' r1]; [done|]. injection Hr as <- ->.
  cbn [mkdir_go]. unfold PyPath.joinpath.
  assert (Hdeep : ∀ w1 : World,
            (∀ q' k', fs w !! q' = Some k' → fs w1 !! q' = Some k') →
            trace w1 = trace w →
            fs w !! (pre ++ [c]) ≠ Some k →
            ∃ w',
              mkdir_go (pre ++ [c]) (r1 ++ r2) w1
              = (Raise (OSError "file exists"), w') ∧
              trace w' = trace w ∧
              (∀ q' k', fs w !! q' = Some k' → fs w' !! q' = Some k')).
  { intros w1 Hkeep1 Ht1 Hp. destruct r1 as [|c1 r1]; [done|].
    destruct (IH (pre ++ [c]) w1) as (w' & Hm & Ht & Hkeep).
    { exists (c1 :: r1), r2. split; [done|]. split; [done|].
      rewrite <- app_assoc. by apply Hkeep1. }
    exists w'. split; [done|]. split; [congruence|]. auto. }
  match goal with
  | |- context [match ?x with _ => _ end] => destruct x as [[]|] eqn:Hp
  end.
  - by exists w.
  - apply Hdeep; [done|done|]. intros Heq. apply Hk.
    enough (Some k = Some Directory) as [= ->] by done.
    rewrite <- Heq. exact Hp.
  - by exists w.
  - apply Hdeep; cbn [fs trace]; [|done|].
    2:{ intros Heq. enough (Some k = None) by done. rewrite <- Heq. exact Hp. }
    intros q' k' Hq'. rewrite lookup_insert_ne; [done|]. congruence.
Qed.

(** X17 — An output path that is taken. With both tools found, when the
    output path or one of its ancestors is there and is not a directory,
    the run ends with [OSError] while it makes the output directory:
    nothing is printed, no process is started, no video is looked for,
    and everything that was on the disk is still there. *)
Theorem main_out_dir_blocked (args : Args) (w : World) (q : Path) (k : kind) :
  which E "ffmpeg" = true → which E "ffprobe" = true →
  ancestor_or_self q (args_out args) →
  fs w !! q = Some k → k ≠ Directory →
  ∃ w',
    main E args w = (Raise (OSError "file exists"), w') ∧
    trace w' = trace w ∧
    (∀ p k', fs w !! p = Some k' → fs w' !! p = Some k').
Proof.
  intros H1 H2 [Hq [rest Hout]] Hk Hnd.
  pose proof (check_deps_eq E w) as Hc. rewrite H1, H2 in Hc.
  destruct (mkdir_go_blocked (args_out args) [] w k Hnd) as (w' & Hm & Ht & Hkeep).
  { by exists q, rest. }
  exists w'. split; [|done].
  unfold main. rewrite (bind_Ok _ _ _ _ _ Hc). cbv zeta.
  by rewrite (bind_Raise _ _ _ _ _ Hm).
Qed.

End Verdicts.

(** ** Thumbnails are not videos *)

Lemma length_append s t :
  String.length (s +:+ t) = (String.length s + String.length t)%nat.
Proof.
  induction s as [|c s IH]; [done|].
  change (String c s +:+ t) with (String c (s +:+ t)). cbn. by rewrite IH.
Qed.

Lemma rfind_go_app c i found s t :
  PyPath.rfind_go c i found (s +:+ t)
  = PyPath.rfind_go c (i + String.length s) (PyPath.rfind_go c i found s) t.
Proof.
  revert i found. induction s as [|c' s IH]; intros i found.
  - cbn. by rewrite Nat.add_0_r.
  - change (String c' s +:+ t) with (String c' (s +:+ t)).
    cbn [PyPath.rfind_go String.length]. rewrite IH. f_equal. lia.
Qed.

Lemma substring_append_skip s t m :
  substring (String.length s) m (s +:+ t) = substring 0 m t.
Proof. induction s as [|c s IH]; [done|]. exact IH. Qed.

(** The suffix of a name that ends in [.jpg]. *)
Lemma suffix_jpg (dir : Path) (s : string) :
  PyPath.suffix (dir ++ [s +:+ ".jpg"]) = if decide (s = "") then "" else ".jpg".
Proof.
  unfold PyPath.suffix, PyPath.name. rewrite last_last.
  unfold PyPath.split_point, PyPath.rfind. rewrite rfind_go_app.
  change (PyPath.rfind_go "." ?n ?f ".jpg") with (Some n).
  rewrite length_append. cbn [String.length Nat.add].
  destruct s as [|c s]; [reflexivity|].
  rewrite decide_False by done. cbn [String.length].
  replace ((0 <? S (String.length s))%nat) with true
    by (symmetry; apply Nat.ltb_lt; lia).
  replace ((S (String.length s) <? S (String.length s) + 4 - 1)%nat) with true
    by (symmetry; apply Nat.ltb_lt; lia).
  cbn [andb].
  replace (S (String.length s) + 4 - S (String.length s))%nat with 4%nat by lia.
  exact (substring_append_skip (String c s) ".jpg" 4).
Qed.

Lemma list_videos_suffix folder w files w' p :
  list_videos folder w = (Ok files, w') →
  p ∈ files → PyStr.lower (PyPath.suffix p) ∈ VIDEO_EXTS.
Proof.
  unfold list_videos, iterdir, mbind, M_bind.
  destruct (fs w !! folder) as [[]|]; try discriminate.
  intros [= <- _]. rewrite merge_sort_Permutation, !list_elem_of_filter.
  by intros [[_ ?] _].
Qed.

(** X14 — Thumbnails are not taken for videos. The suffix of an output
    path is [.jpg] (or empty, for a video whose stem is empty), so
    discovery never returns the output path of a job, in whatever folder
    it looks: a run whose output folder is its input folder does not
    process its own thumbnails the next time. *)
Theorem thumbnails_are_not_videos (outdir path : Path) (mode : string) :
  PyPath.suffix (output_path outdir path mode) ∈ [""; ".jpg"] ∧
  ∀ folder w files w',
    list_videos folder w = (Ok files, w') →
    output_path outdir path mode ∉ files.
Proof.
  assert (H : PyPath.suffix (output_path outdir path mode) ∈ [""; ".jpg"]).
  { unfold output_path, PyPath.joinpath.
    destruct (String.eqb mode "grid").
    - rewrite append_grid, suffix_jpg. destruct (decide _); set_solver.
    - rewrite suffix_jpg. destruct (decide _); set_solver. }
  split; [exact H|]. intros folder w files w' Hl Hin.
  apply (list_videos_suffix _ _ _ _ _ Hl) in Hin. revert Hin.
  rewrite !elem_of_cons in H. destruct H as [->|[->|H]]; [compute_done..|].
  by apply elem_of_nil in H.
Qed.

(* ===================================================================== *)
(** * Further runs on the concrete environment *)
(* ===================================================================== *)

(** Discovery on the concrete machine makes [/thumbs]. *)
Lemma discover_makes_out_dir_witness :
  fs (discover Demo.env (Demo.args "smart" "3x3") Demo.world).2 !! ["thumbs"]
  = Some Directory.
Proof.
  destruct (discover_makes_out_dir Demo.env (Demo.args "smart" "3x3")
              Demo.world Demo.videos _ (demo_discover "smart" "3x3")) as [H _].
  by apply H.
Defined.

(** On a bare disk the input folder is not there. *)
Lemma main_without_input_dir_witness :
  (main Demo.env (Demo.args "smart" "3x3") Scenario.bare).1
  = Raise (OSError "not a directory").
Proof.
  destruct (main_without_input_dir Demo.env (Demo.args "smart" "3x3")
              Scenario.bare
              (mkdir_parents ["thumbs"] Scenario.bare).2 eq_refl eq_refl)
    as [H _].
  - vm_compute. reflexivity.
  - vm_compute. discriminate.
  - by rewrite H.
Defined.


(** A mode nobody knows, on a video without thumbnail. *)
Lemma process_one_unknown_mode_witness :
  process_one Demo.env ["in"; "b.mov"] ["thumbs"] "fancy" 640 (-2)
    0x1.3333333333333p-2%float 720 "/Library/Fonts/Arial Bold.ttf" None "3x3"
    Demo.rerun
  = (Ok (false, "/in/b.mov", "unknown mode: fancy"), Demo.rerun).
Proof.
  rewrite (process_one_unknown_mode Demo.env ["in"; "b.mov"] ["thumbs"] "fancy").
  - vm_compute. reflexivity.
  - rewrite !not_elem_of_cons. repeat split; try discriminate.
    apply not_elem_of_nil.
Defined.

Lemma demo_discover_complete :
  discover Demo.env (Demo.args "smart" "3x3") Scenario.complete
  = (Ok Demo.videos,
     (discover Demo.env (Demo.args "smart" "3x3") Scenario.complete).2).
Proof. vm_compute. reflexivity. Qed.

(** A run over thumbnails that are all there starts nothing. *)
Lemma main_again_is_noop_witness :
  ∃ w',
    main Demo.env (Demo.args "smart" "3x3") Scenario.complete = (Ok tt, w') ∧
    spawned (trace w') = [].
Proof.
  destruct (main_again_is_noop Demo.env (Demo.args "smart" "3x3")
              Scenario.complete Demo.videos _ demo_discover_complete)
    as (ps & w' & Hm & _ & _ & Hs & _).
  - discriminate.
  - exact demo_order.
  - repeat (apply Forall_cons; split); try apply Forall_nil;
      vm_compute; by eexists.
  - exists w'. split; [exact Hm|exact Hs].
Defined.


(** The line of a failure of [broken.mp4]. *)
Lemma result_line_names_video_witness :
  result_line false "/in/broken.mp4" "Error: boom" = "[✗] broken.mp4: Error: boom".
Proof.
  destruct (result_line_names_video ["in"; "broken.mp4"] false "Error: boom")
    as [_ H].
  - apply Forall_cons. split; [split; [discriminate|compute_done]|].
    apply Forall_cons. split; [split; [discriminate|compute_done]|].
    apply Forall_nil. exact I.
  - exact H.
Defined.



(** A regular file named [/thumbs] stops the run. *)
Lemma main_out_dir_blocked_witness :
  ∃ w',
    main Demo.env (Demo.args "smart" "3x3") Scenario.blocked
    = (Raise (OSError "file exists"), w') ∧
    trace w' = [].
Proof.
  destruct (main_out_dir_blocked Demo.env (Demo.args "smart" "3x3")
              Scenario.blocked ["thumbs"] Regular eq_refl eq_refl)
    as (w' & Hm & Ht & _).
  - split; [discriminate|]. by exists [].
  - reflexivity.
  - discriminate.
  - exists w'. split; [exact Hm|exact Ht].
Defined.
